(** * torch/_custom_op.py: the CustomOp registration layer

    A shallow embedding of [torch/_custom_op.py].  Python code that raises is
    a computation returning [result]; code that reads or writes process-wide
    state (the dispatcher, the CustomOp objects, [global_registry],
    [global_ctx_getter]) is a state transformer over [World].  CustomOp
    objects live in a heap and are referred to by address, so that the
    registry, the kernels and the caller all see one object.  Objects are
    never reclaimed: the weakness of the registry's references is not
    modelled. *)

From Stdlib Require Import Ascii.
From stdpp Require Import gmap strings list pretty.

Local Open Scope string_scope.

(** ** Strings *)

(** The double-quote character, which occurs inside some messages. *)
Definition dq : string := String (Ascii.ascii_of_nat 34) EmptyString.

(** [sub in s] for Python strings, as a proposition. *)
Definition contains (sub s : string) : Prop :=
  exists pre post, s = pre +:+ sub +:+ post.

(** ["." in ns]: a one-character needle occurs iff the character does. *)
Fixpoint has_char (c : Ascii.ascii) (s : string) : bool :=
  match s with
  | EmptyString => false
  | String c' s' => if Ascii.eqb c c' then true else has_char c s'
  end.

(** [repr] of an identifier-like [str], of a tuple and of a list of them. *)
Definition repr_str (s : string) : string := "'" +:+ s +:+ "'".

Fixpoint join (sep : string) (l : list string) : string :=
  match l with
  | [] => EmptyString
  | [x] => x
  | x :: l' => x +:+ sep +:+ join sep l'
  end.

Definition repr_tuple (l : list string) : string :=
  match l with
  | [x] => "(" +:+ repr_str x +:+ ",)"
  | _ => "(" +:+ join ", " (map repr_str l) +:+ ")"
  end.

Definition repr_list (l : list string) : string :=
  "[" +:+ join ", " (map repr_str l) +:+ "]".

(** ** Exceptions and results *)

Inductive exn : Type :=
| ValueError (msg : string)
| RuntimeError (msg : string)
| ReferenceError (msg : string)
| DynamicOutputShapeException (op : string)
| OtherError (what : string)
| AssertionError (msg : string).

Inductive result (A : Type) : Type :=
| Ok (a : A)
| Raise (e : exn).
Arguments Ok {A} a.
Arguments Raise {A} e.

(** ** The torchgen data this module reads

    [torchgen.model] is imported, not defined here.  The records follow its
    dataclasses, with the attributes that [_custom_op.py] reads and the slots
    of [Arguments] it does not read; the methods it calls
    ([FunctionSchema.parse], [.kind()], [Arguments.has_tensor_arg()] and the
    [str] conversions) are the operations of the class [Torchgen], over
    which everything below is parameterised. *)

Inductive SchemaKind : Type :=
| functional | inplace | mutable | out | scratch.

Record Annotation := { alias_set : list string; is_write : bool }.

Record Argument := {
  arg_name : string;
  arg_type : string;
  arg_annotation : option Annotation
}.

Record Return := { ret_name : option string; annotation : option Annotation }.

Record BaseOperatorName := { base : string }.

Record OperatorName := { opn_name : BaseOperatorName; overload_name : option string }.

(** The group [dtype, layout, device, pin_memory] that torchgen folds four
    consecutive keyword-only arguments of those names into. *)
Record TensorOptionsArguments := {
  dtype : Argument;
  layout : Argument;
  device : Argument;
  pin_memory : Argument
}.

(** The seven slots of torchgen's [Arguments].  The parser puts a positional
    parameter named [self] into [self_arg] and what precedes it into
    [pre_self_positional]; keyword-only parameters go before, into or after
    the tensor-options group, and keyword-only mutable ones into [out]. *)
Record Arguments := {
  pre_self_positional : list Argument;
  self_arg : option Argument;
  post_self_positional : list Argument;
  pre_tensor_options_kwarg_only : list Argument;
  tensor_options : option TensorOptionsArguments;
  post_tensor_options_kwarg_only : list Argument;
  arguments_out : list Argument
}.

(** [Arguments.flat_positional], [.flat_kwarg_only] and [.flat_all]: the
    parameters a schema declares, in the order it declares them. *)
Definition flat_positional (a : Arguments) : list Argument :=
  pre_self_positional a
  ++ match self_arg a with Some s => [s] | None => [] end
  ++ post_self_positional a.

Definition flat_kwarg_only (a : Arguments) : list Argument :=
  pre_tensor_options_kwarg_only a
  ++ match tensor_options a with
     | Some t => [dtype t; layout t; device t; pin_memory t]
     | None => []
     end
  ++ post_tensor_options_kwarg_only a.

Definition flat_all (a : Arguments) : list Argument :=
  flat_positional a ++ flat_kwarg_only a ++ arguments_out a.

Record FunctionSchema := {
  name : OperatorName;
  arguments : Arguments;
  returns : list Return
}.

Class Torchgen := {
  parse : string -> result FunctionSchema;
  kind : FunctionSchema -> SchemaKind;
  has_tensor_arg : Arguments -> bool;
  str_FunctionSchema : FunctionSchema -> string;
  str_OperatorName : OperatorName -> string;
  str_BaseOperatorName : BaseOperatorName -> string
}.

Definition SchemaKind_eqb (a b : SchemaKind) : bool :=
  match a, b with
  | functional, functional | inplace, inplace | mutable, mutable
  | out, out | scratch, scratch => true
  | _, _ => false
  end.

(** ** Python functions and other objects handed to the decorators *)

(** What [inspect.getfullargspec] and the attribute reads see of a function. *)
Record PyFunction := {
  __name__ : string;
  __module__ : string;
  __doc__ : option string;
  args : list string;
  kwonlyargs : list string
}.

(** A decorated value: a Python function, or an object of some other type. *)
Inductive PyObj : Type :=
| PFunction (f : PyFunction)
| PObject (type_name : string).

Definition isfunction (o : PyObj) : bool :=
  match o with PFunction _ => true | PObject _ => false end.

(** [str(type(o))] *)
Definition str_type (o : PyObj) : string :=
  match o with
  | PFunction _ => "<class 'function'>"
  | PObject t => "<class '" +:+ t +:+ "'>"
  end.

(** ** Module constants *)

Definition RESERVED_NS : gset string :=
  {[ "prim"; "prims"; "aten"; "at"; "torch"; "pytorch" ]}.

(** ** The validators: pure code that returns or raises *)

Definition validate_namespace (ns : string) : result unit :=
  if has_char "."%char ns then
    Raise (ValueError ("custom_op(..., ns=" +:+ dq +:+ ns +:+ dq
      +:+ "): expected ns to not contain any . (and be a valid variable name)"))
  else if bool_decide (ns ∈ RESERVED_NS) then
    Raise (ValueError ("custom_op(..., ns='" +:+ ns +:+ "'): '" +:+ ns
      +:+ "' is a reserved namespace, please choose something else. "))
  else Ok tt.

(** [r.annotation is not None and not r.annotation.is_write] *)
Definition non_write_alias (r : Return) : bool :=
  match annotation r with
  | Some a => negb (is_write a)
  | None => false
  end.

Definition is_non_mutating_view (rets : list Return) : bool :=
  (0 <? length rets)%nat && existsb non_write_alias rets.

Section Validation.
Context `{TG : Torchgen}.

Definition validate_schema (schema : FunctionSchema) : result unit :=
  if negb (SchemaKind_eqb (kind schema) functional) then
    Raise (ValueError ("custom_op does not support non-functional function schema. Got: "
                       +:+ str_FunctionSchema schema))
  else
    let rets := returns schema in
    if is_non_mutating_view rets then
      Raise (ValueError ("custom_op does not support view functions. Got: "
                         +:+ str_FunctionSchema schema))
    else if negb (has_tensor_arg (arguments schema)) then
      Raise (ValueError ("custom_op does not support function schema with no Tensor inputs. Got: "
                         +:+ str_FunctionSchema schema))
    else if match returns schema with [] => true | _ => false end then
      Raise (ValueError ("custom_op does not support function schema with no outputs. Got: "
                         +:+ str_FunctionSchema schema))
    else if match self_arg (arguments schema) with Some _ => true | None => false end then
      Raise (ValueError ("custom_op does not support arguments named 'self'. Please "
                         +:+ "rename your argument. Got: " +:+ str_FunctionSchema schema))
    else Ok tt.

Definition validate_function_matches_schema
    (schema : FunctionSchema) (func : PyFunction) : result unit :=
  let arg_names := map arg_name (post_self_positional (arguments schema)) in
  if negb (bool_decide (arg_names = args func)) then
    Raise (ValueError ("custom_op: Expected the schema to match the signature of `func`. "
      +:+ "Schema has arg names " +:+ repr_tuple arg_names
      +:+ " but function has " +:+ repr_list (args func) +:+ "."))
  else
    let kwonlyarg_names :=
      map arg_name (pre_tensor_options_kwarg_only (arguments schema)) in
    if negb (bool_decide (kwonlyarg_names = kwonlyargs func)) then
      Raise (ValueError ("custom_op: Expected the schema to match the signature of `func`. "
        +:+ "Schema has kwonlyarg names " +:+ repr_tuple kwonlyarg_names
        +:+ " but function has " +:+ repr_list (kwonlyargs func) +:+ "."))
    else Ok tt.
End Validation.

(** ** Python values passed to operators *)

Record Tensor := { tensor_id : nat; requires_grad : bool }.

(** An unbacked symbolic integer [i<n>] of a shape environment. *)
Record SymInt := { symbol : nat }.

(** Modelled from the spec: [ShapeEnv] of torch.fx.experimental.symbolic_shapes
    is not part of these sources.  Per section 4.3 it owns the flag that allows
    dynamic output shapes and an allocator of fresh unbacked sizes, each of
    which starts with the range floor 2 and no upper bound. *)
Record ShapeEnv := {
  allow_dynamic_output_shape_ops : bool;
  unbacked_symint_counter : nat;
  var_to_range : gmap nat (Z * option Z)
}.

Record FakeTensorImplCtx := { _shape_env : option ShapeEnv; _op : string }.

#[warnings="-register-all"]
Inductive PyVal : Type :=
| VNone
| VBool (b : bool)
| VInt (z : Z)
| VStr (s : string)
| VTensor (t : Tensor)
| VSymInt (s : SymInt)
| VCtx (c : FakeTensorImplCtx)
| VList (l : list PyVal)
| VTuple (l : list PyVal)
| VDict (d : list (string * PyVal)).

(** Modelled from the spec: [torch.utils._pytree] is not part of these
    sources.  Section 4.2 speaks of the inputs of a call that require
    gradients; the inputs are the leaves of its positional and keyword
    arguments, where lists, tuples and dicts are interior nodes and every
    other value is a leaf. *)
Fixpoint tree_leaves (v : PyVal) : list PyVal :=
  match v with
  | VList l | VTuple l => flat_map tree_leaves l
  | VDict d => flat_map (fun kv => let '(_, x) := kv in tree_leaves x) d
  | _ => [v]
  end.

Definition tree_any (pred : PyVal -> bool) (pytree : PyVal) : bool :=
  existsb pred (tree_leaves pytree).

(** ** Process state *)

Record FuncAndLocation := { func : PyFunction; location : string }.

Record Library := { lib_ns : string; lib_kind : string }.

(** The opaque [_C._DispatchOperatorHandle]: qualified name and overload. *)
Definition OpHandle : Type := string * string.

Record CustomOp := {
  _lib : Library;
  _ophandle : OpHandle;
  _opname : string;
  _qualname : string;
  self__name__ : option string;
  self__module__ : option string;
  self__doc__ : option string;
  _fake_impl : option FuncAndLocation
}.

(** The callables this module hands to the dispatcher.  The two closures are
    kept as data: the function and the variables they close over. *)
Inductive Callable : Type :=
| CFunction (f : PyFunction)
| CAutogradNotImplemented (custom_op : nat)
| CFWithCtx (f : PyFunction) (qualname new_location : string).

(** The values [global_ctx_getter] takes: the module's default, the closure
    [error_on_ctx] of [f_with_ctx], and a callable returning a given value
    (what a caller of [set_ctx_getter] outside this module installs). *)
Inductive CtxGetter : Type :=
| get_none
| error_on_ctx (qualname new_location : string)
| const_getter (v : PyVal).

(** Modelled from the spec: the dispatcher of torch._C and torch.library is
    not part of these sources.  Section 6 gives its interface: a schema
    registration that raises on a parse error, a lookup of a qualified,
    overloaded name that raises if absent, the installation of a callable
    under a dispatch key, and the boxed call. *)
Record Dispatcher := {
  fragments : list Library;
  schemas : list (OpHandle * string);
  kernels : list (string * string * Callable)
}.

Record World := {
  dispatcher : Dispatcher;
  heap : list CustomOp;
  global_registry : gmap string nat;
  global_ctx_getter : CtxGetter;
  autograd_excluded : bool
}.

Definition set_dispatcher (d : Dispatcher) (w : World) : World :=
  {| dispatcher := d; heap := heap w; global_registry := global_registry w;
     global_ctx_getter := global_ctx_getter w;
     autograd_excluded := autograd_excluded w |}.

Definition set_heap (h : list CustomOp) (w : World) : World :=
  {| dispatcher := dispatcher w; heap := h; global_registry := global_registry w;
     global_ctx_getter := global_ctx_getter w;
     autograd_excluded := autograd_excluded w |}.

Definition set_global_registry (r : gmap string nat) (w : World) : World :=
  {| dispatcher := dispatcher w; heap := heap w; global_registry := r;
     global_ctx_getter := global_ctx_getter w;
     autograd_excluded := autograd_excluded w |}.

Definition set_global_ctx_getter (g : CtxGetter) (w : World) : World :=
  {| dispatcher := dispatcher w; heap := heap w;
     global_registry := global_registry w; global_ctx_getter := g;
     autograd_excluded := autograd_excluded w |}.

Definition set_autograd_excluded (b : bool) (w : World) : World :=
  {| dispatcher := dispatcher w; heap := heap w;
     global_registry := global_registry w;
     global_ctx_getter := global_ctx_getter w; autograd_excluded := b |}.

(** The state at import time: nothing defined, [global_registry] empty and
    [global_ctx_getter = get_none]. *)
Definition initial_world : World :=
  {| dispatcher := {| fragments := []; schemas := []; kernels := [] |};
     heap := []; global_registry := ∅; global_ctx_getter := get_none;
     autograd_excluded := false |}.

(** ** The monad of Python code: state, and a result or an exception *)

Definition M (A : Type) : Type := World -> result A * World.

Definition ret {A} (a : A) : M A := fun w => (Ok a, w).
Definition raise {A} (e : exn) : M A := fun w => (Raise e, w).
Definition lift {A} (r : result A) : M A := fun w => (r, w).
Definition gets {A} (f : World -> A) : M A := fun w => (Ok (f w), w).
Definition modify (f : World -> World) : M unit := fun w => (Ok tt, f w).

Definition bind {A B} (m : M A) (k : A -> M B) : M B :=
  fun w =>
    match m w with
    | (Ok a, w') => k a w'
    | (Raise e, w') => (Raise e, w')
    end.

(** [try: body finally: fin]: [fin] runs on both exits; the outcome of
    [body] stands unless [fin] itself raises. *)
Definition try_finally {A} (body : M A) (fin : M unit) : M A :=
  fun w =>
    let '(r, w') := body w in
    match fin w' with
    | (Ok _, w'') => (r, w'')
    | (Raise e, w'') => (Raise e, w'')
    end.

Notation "'let*' x ':=' m 'in' k" := (bind m (fun x => k))
  (at level 10, x name, m at level 100, k at level 200).
Notation "m1 ';;' m2" := (bind m1 (fun _ => m2))
  (at level 100, m2 at level 200, right associativity, only parsing).

(** The code that runs behind calls this module cannot see into: the boxed
    dispatcher call and the bodies of user functions.  Both may read and
    write all of the process state and may raise. *)
Class Host := {
  _dispatch_call_boxed : OpHandle -> list PyVal -> list (string * PyVal) -> M PyVal;
  call_function : PyFunction -> list PyVal -> list (string * PyVal) -> M PyVal
}.

Section CustomOps.
Context `{TG : Torchgen} `{HS : Host}.

(** *** The dispatcher interface *)

(** [library.Library(ns, kind)] *)
Definition Library_new (ns kind : string) : M Library :=
  let lib := {| lib_ns := ns; lib_kind := kind |} in
  modify (fun w =>
    let d := dispatcher w in
    set_dispatcher {| fragments := fragments d ++ [lib]; schemas := schemas d;
                      kernels := kernels d |} w) ;;
  ret lib.

(** [lib.define(schema_str)] *)
Definition Library_define (lib : Library) (schema_str : string) : M unit :=
  let* fs := lift (parse schema_str) in
  let handle :=
    (lib_ns lib +:+ "::" +:+ str_BaseOperatorName (opn_name (name fs)),
     default EmptyString (overload_name (name fs))) in
  modify (fun w =>
    let d := dispatcher w in
    set_dispatcher {| fragments := fragments d;
                      schemas := schemas d ++ [(handle, schema_str)];
                      kernels := kernels d |} w).

Definition OpHandle_eqb (a b : OpHandle) : bool :=
  String.eqb (fst a) (fst b) && String.eqb (snd a) (snd b).

(** [_C._dispatch_find_schema_or_throw(name, overload_name)] *)
Definition _dispatch_find_schema_or_throw (qualname overload : string) : M OpHandle :=
  let* d := gets dispatcher in
  if existsb (fun e => OpHandle_eqb (fst e) (qualname, overload)) (schemas d)
  then ret (qualname, overload)
  else raise (RuntimeError ("Could not find schema for " +:+ qualname
                            +:+ "." +:+ overload)).

(** Modelled from the spec: [Library.impl(opname, fn, dispatch_key)] of
    torch.library is not part of these sources.  Section 6 describes the
    installation of a callable under a dispatch key and names no failure, so
    the installation always goes through here; the library's refusal of a
    second Python kernel for the same operator and key is not modelled, and
    what is proved about repeated installations is stated for calls that
    return. *)
Definition Library_impl (lib : Library) (opname : string) (fn : Callable)
    (dispatch_key : string) : M unit :=
  modify (fun w =>
    let d := dispatcher w in
    set_dispatcher
      {| fragments := fragments d; schemas := schemas d;
         kernels := kernels d
                    ++ [(lib_ns lib +:+ "::" +:+ opname, dispatch_key, fn)] |} w).

(** [library.impl(lib, name, dispatch_key)(f)] *)
Definition library_impl (lib : Library) (opname dispatch_key : string)
    (f : Callable) : M Callable :=
  Library_impl lib opname f dispatch_key ;; ret f.

(** *** CustomOp objects *)

(** Reading through a reference to a CustomOp; a dead one raises, as a
    [weakref.proxy] does. *)
Definition deref (self : nat) : M CustomOp :=
  let* h := gets heap in
  match h !! self with
  | Some op => ret op
  | None => raise (ReferenceError "weakly-referenced object no longer exists")
  end.

Definition update (self : nat) (f : CustomOp -> CustomOp) : M unit :=
  let* op := deref self in
  modify (fun w => set_heap (<[self := f op]> (heap w)) w).

Definition CustomOp_init (lib : Library) (cpp_ns : string)
    (operator_name : OperatorName) (ophandle : OpHandle)
    (_private_access : bool) : M nat :=
  if negb _private_access then
    raise (RuntimeError ("The CustomOp constructor is private and we do not guarantee "
      +:+ "BC for it. Please use custom_op(...) to create a CustomOp object"))
  else
    let name := cpp_ns +:+ "::" +:+ str_BaseOperatorName (opn_name operator_name) in
    let* self := gets (fun w => length (heap w)) in
    modify (fun w => set_heap (heap w ++ [
      {| _lib := lib; _ophandle := ophandle;
         _opname := str_OperatorName operator_name;
         _qualname := name;
         self__name__ := None; self__module__ := None; self__doc__ := None;
         _fake_impl := None |}]) w) ;;
    let* op := deref self in
    modify (fun w =>
      set_global_registry (<[_qualname op := self]> (global_registry w)) w) ;;
    ret self.

(** [CustomOp.__call__] *)
Definition CustomOp_call (self : nat) (args : list PyVal)
    (kwargs : list (string * PyVal)) : M PyVal :=
  let* op := deref self in
  _dispatch_call_boxed (_ophandle op) args kwargs.

Definition find_ophandle_or_throw (cpp_ns : string)
    (operator_name : OperatorName) : M OpHandle :=
  let overload_name :=
    match overload_name operator_name with
    | None => EmptyString
    | Some o => o
    end in
  _dispatch_find_schema_or_throw
    (cpp_ns +:+ "::" +:+ str_BaseOperatorName (opn_name operator_name))
    overload_name.

(** *** The ambient context getter *)

(** Calling the callable held in [global_ctx_getter]. *)
Definition call_ctx_getter (g : CtxGetter) : M PyVal :=
  match g with
  | get_none => ret VNone
  | error_on_ctx qualname new_location =>
      raise (RuntimeError ("Attempted to call get_ctx() for the meta implementation "
        +:+ "for " +:+ qualname +:+ "."
        +:+ "You have presumably called get_ctx() because the operator "
        +:+ "has a data-dependent output shape; if so, there is no "
        +:+ "such meta implementation and this error is the correct "
        +:+ "behavior. Otherwise, please remove the call to get_ctx() "
        +:+ "in the implementation registered with impl_fake "
        +:+ "at " +:+ new_location))
  | const_getter v => ret v
  end.

Definition get_ctx : M PyVal :=
  let* g := gets global_ctx_getter in
  call_ctx_getter g.

(** The context manager, applied to the body of its [with] block. *)
Definition set_ctx_getter {A} (ctx_getter : CtxGetter) (body : M A) : M A :=
  let* prev := gets global_ctx_getter in
  try_finally
    (modify (set_global_ctx_getter ctx_getter) ;; body)
    (modify (set_global_ctx_getter prev)).

(** *** Fake implementations *)

(** The frame [inspect.stack()[1]] of the caller of the decorator. *)
Record FrameInfo := { filename : string; lineno : N }.

Definition f_with_ctx (f : PyFunction) (qualname new_location : string)
    (args : list PyVal) (kwargs : list (string * PyVal)) : M PyVal :=
  set_ctx_getter (error_on_ctx qualname new_location) (call_function f args kwargs).

(** [CustomOp.impl_fake(self)(f)] *)
Definition impl_fake_inner (self : nat) (f : PyFunction) (frame : FrameInfo)
    : M PyFunction :=
  let* op := deref self in
  match _fake_impl op with
  | Some fl =>
      raise (RuntimeError ("Attempting to register a FakeTensor rule for operator "
        +:+ _qualname op +:+ " "
        +:+ "that already has a FakeTensor rule registered from Python at "
        +:+ location fl +:+ ". This is not supported."))
  | None =>
      let new_location := filename frame +:+ ":" +:+ pretty (lineno frame) in
      update self (fun o =>
        {| _lib := _lib o; _ophandle := _ophandle o; _opname := _opname o;
           _qualname := _qualname o; self__name__ := self__name__ o;
           self__module__ := self__module__ o; self__doc__ := self__doc__ o;
           _fake_impl := Some {| func := f; location := new_location |} |}) ;;
      let* op := deref self in
      let qualname := _qualname op in
      Library_impl (_lib op) (_opname op) (CFWithCtx f qualname new_location) "Meta" ;;
      ret f
  end.

(** *** The default autograd kernel *)

(** Modelled from the spec: the guard [_C._AutoDispatchBelowAutograd] is not
    part of these sources.  Per section 4.2 the call is forwarded with
    gradient tracking disabled: the guard excludes the autograd keys while it
    lives, and destroying it lifts the exclusion if it was the one to set
    it. *)
Definition _AutoDispatchBelowAutograd : M bool :=
  let* was := gets autograd_excluded in
  modify (set_autograd_excluded true) ;;
  ret (negb was).

Definition del_guard (guard : bool) : M unit :=
  if guard then modify (set_autograd_excluded false) else ret tt.

Definition requires_grad_tensor (x : PyVal) : bool :=
  match x with
  | VTensor t => requires_grad t
  | _ => false
  end.

(** The kernel [autograd_not_implemented] that
    [get_autograd_not_implemented_kernel(custom_op)] returns, applied to
    its positional and keyword arguments. *)
Definition autograd_not_implemented (custom_op : nat) (args : list PyVal)
    (kwargs : list (string * PyVal)) : M PyVal :=
  if tree_any requires_grad_tensor (VTuple [VTuple args; VDict kwargs]) then
    raise (RuntimeError "Autograd has not been implemented for operator")
  else
    let* guard := _AutoDispatchBelowAutograd in
    try_finally (CustomOp_call custom_op args kwargs) (del_guard guard).

Definition get_autograd_not_implemented_kernel (custom_op : nat) : Callable :=
  CAutogradNotImplemented custom_op.

(** *** The decorator *)

(** [custom_op(schema, ns=ns)(func)] *)
Definition custom_op_inner (schema ns : string) (func : PyObj) : M nat :=
  match func with
  | PObject _ =>
      raise (ValueError ("custom_op(...)(func): Expected `func` to be a Python "
        +:+ "function, got: " +:+ str_type func))
  | PFunction fn =>
      lift (validate_namespace ns) ;;
      let schema_str := __name__ fn +:+ schema in
      let* function_schema := lift (parse schema_str) in
      lift (validate_schema function_schema) ;;
      lift (validate_function_matches_schema function_schema fn) ;;
      let* lib := Library_new ns "FRAGMENT" in
      Library_define lib schema_str ;;
      let* ophandle := find_ophandle_or_throw ns (name function_schema) in
      let* result := CustomOp_init lib ns (name function_schema) ophandle true in
      update result (fun o =>
        {| _lib := _lib o; _ophandle := _ophandle o; _opname := _opname o;
           _qualname := _qualname o; self__name__ := Some (__name__ fn);
           self__module__ := Some (__module__ fn); self__doc__ := __doc__ fn;
           _fake_impl := _fake_impl o |}) ;;
      let* op := deref result in
      library_impl lib (_opname op) "Autograd"
        (get_autograd_not_implemented_kernel result) ;;
      ret result
  end.

Definition custom_op (schema ns : string) : PyObj -> M nat :=
  custom_op_inner schema ns.

(** Calling a callable that was handed to the dispatcher. *)
Definition call_callable (c : Callable) (args : list PyVal)
    (kwargs : list (string * PyVal)) : M PyVal :=
  match c with
  | CFunction f => call_function f args kwargs
  | CAutogradNotImplemented op => autograd_not_implemented op args kwargs
  | CFWithCtx f qualname new_location =>
      f_with_ctx f qualname new_location args kwargs
  end.

(** *** FakeTensorImplCtx *)

(** Modelled from the spec: [ShapeEnv.create_unbacked_symint] is not part
    of these sources.  Per section 4.3 it allocates a fresh unbacked size
    in the environment, whose range starts at the floor 2. *)
Definition create_unbacked_symint (env : ShapeEnv) : SymInt * ShapeEnv :=
  let n := unbacked_symint_counter env in
  ({| symbol := n |},
   {| allow_dynamic_output_shape_ops := allow_dynamic_output_shape_ops env;
      unbacked_symint_counter := S n;
      var_to_range := <[n := (2%Z, None)]> (var_to_range env) |}).

(** The method mutates the environment the context refers to, so it returns
    the context as it is afterwards next to its result. *)
Definition new_data_dependent_symint (self : FakeTensorImplCtx)
    : result SymInt * FakeTensorImplCtx :=
  match _shape_env self with
  | None => (Raise (DynamicOutputShapeException (_op self)), self)
  | Some env =>
      if negb (allow_dynamic_output_shape_ops env) then
        (Raise (DynamicOutputShapeException (_op self)), self)
      else
        let '(result, env') := create_unbacked_symint env in
        (Ok result, {| _shape_env := Some env'; _op := _op self |})
  end.

End CustomOps.

(** ** The rest of the module: name parsing and device implementations *)

(** [s.split(sep, 1)] for a non-empty [sep]: the text before and after the
    first occurrence of [sep], or [s] alone when there is none. *)
Fixpoint strip_prefix (p s : string) : option string :=
  match p, s with
  | EmptyString, _ => Some s
  | String a p', String b s' => if Ascii.eqb a b then strip_prefix p' s' else None
  | String _ _, EmptyString => None
  end.

Fixpoint split_once (sep s : string) : list string :=
  match strip_prefix sep s with
  | Some rest => [EmptyString; rest]
  | None =>
      match s with
      | EmptyString => [s]
      | String c s' =>
          match split_once sep s' with
          | [a; b] => [String c a; b]
          | _ => [s]
          end
      end
  end.

Definition parse_namespace (namespaced_entity : string) : result (string * string) :=
  let names := split_once "::" namespaced_entity in
  match names with
  | [n0; n1] => Ok (n0, n1)
  | _ => Raise (ValueError ("Expected there to be a namespace in "
                            +:+ namespaced_entity +:+ "."))
  end.

(** The dict keeps its insertion order, which its [keys()] print in. *)
Definition SUPPORTED_DEVICE_TYPE_TO_KEY : list (string * string) :=
  [("cpu", "CPU"); ("cuda", "CUDA")].

Fixpoint dict_get (d : list (string * string)) (k : string) : option string :=
  match d with
  | [] => None
  | (k', v) :: d' => if String.eqb k' k then Some v else dict_get d' k
  end.

Definition validate_device_type (device_type : string) : result unit :=
  match dict_get SUPPORTED_DEVICE_TYPE_TO_KEY device_type with
  | None =>
      Raise (ValueError ("CustomOp.impl(device_types=[" +:+ device_type
        +:+ ", ...]): we only support device_type "
        +:+ "in dict_keys(" +:+ repr_list (map fst SUPPORTED_DEVICE_TYPE_TO_KEY)
        +:+ ")."))
  | Some _ => Ok tt
  end.

(** The argument of [CustomOp.impl]: one [str], or a list or tuple of them.
    (A one-shot iterator, which the validation loop would use up, is left
    out.) *)
Inductive DeviceTypes : Type :=
| OneDevice (device_type : string)
| ManyDevices (device_types : list string).

(** [for x in l: f(x)] for a body that returns or raises. *)
Fixpoint for_each {A} (f : A -> result unit) (l : list A) : result unit :=
  match l with
  | [] => Ok tt
  | x :: l' =>
      match f x with
      | Ok _ => for_each f l'
      | Raise e => Raise e
      end
  end.

(** [CustomOp.impl(self, device_types)] up to the point where it returns its
    decorator: the list of device types the decorator closes over. *)
Definition CustomOp_impl (device_types : DeviceTypes) : result (list string) :=
  let device_types :=
    match device_types with
    | OneDevice s => [s]
    | ManyDevices l => l
    end in
  match for_each validate_device_type device_types with
  | Ok _ => Ok device_types
  | Raise e => Raise e
  end.

(** The loop of the decorator over [set(device_types)], given the distinct
    device types in the order the set yields them. *)
Fixpoint register_devices (self : nat) (f : PyFunction) (l : list string) : M unit :=
  match l with
  | [] => ret tt
  | device_type :: l' =>
      let* dispatch_key :=
        match dict_get SUPPORTED_DEVICE_TYPE_TO_KEY device_type with
        | Some k => ret k
        | None => raise (OtherError ("KeyError: " +:+ repr_str device_type))
        end in
      let* op := deref self in
      library_impl (_lib op) (_opname op) dispatch_key (CFunction f) ;;
      register_devices self f l'
  end.

(** [CustomOp.impl(self, device_types)(f)], once [impl] has returned.  Python
    walks a set in hash order; [remove_dups] picks one order of the distinct
    elements, and nothing proved below depends on which. *)
Definition CustomOp_impl_inner (self : nat) (device_types : list string)
    (f : PyFunction) : M PyFunction :=
  register_devices self f (remove_dups device_types) ;;
  ret f.

(** [self.impl(device_types)(f)] as one step. *)
Definition CustomOp_impl_apply (self : nat) (device_types : DeviceTypes)
    (f : PyFunction) : M PyFunction :=
  let* l := lift (CustomOp_impl device_types) in
  CustomOp_impl_inner self l f.

(** The kernel-table entry that [impl] writes for one device type, and
    the state with some entries appended to the kernel table. *)
Definition device_kernel (op : CustomOp) (f : PyFunction) (device_type : string)
    : string * string * Callable :=
  (lib_ns (_lib op) +:+ "::" +:+ _opname op,
   default EmptyString (dict_get SUPPORTED_DEVICE_TYPE_TO_KEY device_type),
   CFunction f).

Definition add_kernels (es : list (string * string * Callable)) (w : World) : World :=
  set_dispatcher
    {| fragments := fragments (dispatcher w); schemas := schemas (dispatcher w);
       kernels := kernels (dispatcher w) ++ es |} w.

(** The list of device types [impl] works on, for either form of argument. *)
Definition device_list (device_types : DeviceTypes) : list string :=
  match device_types with
  | OneDevice s => [s]
  | ManyDevices l => l
  end.

(** A CustomOp with its [_fake_impl] attribute assigned. *)
Definition with_fake_impl (fl : FuncAndLocation) (o : CustomOp) : CustomOp :=
  {| _lib := _lib o; _ophandle := _ophandle o; _opname := _opname o;
     _qualname := _qualname o; self__name__ := self__name__ o;
     self__module__ := self__module__ o; self__doc__ := self__doc__ o;
     _fake_impl := Some fl |}.

(** ** A concrete host, to run the definitions on examples *)

Module Sample.

Definition tensor_arg (n : string) : Argument :=
  {| arg_name := n; arg_type := "Tensor"; arg_annotation := None |}.

Definition int_arg (n : string) : Argument :=
  {| arg_name := n; arg_type := "int"; arg_annotation := None |}.

Definition plain_return : Return := {| ret_name := None; annotation := None |}.

Definition view_return : Return :=
  {| ret_name := None;
     annotation := Some {| alias_set := ["a"]; is_write := false |} |}.

Definition op_named (n : string) : OperatorName :=
  {| opn_name := {| base := n |}; overload_name := None |}.

(** The arguments of a schema without [self], tensor options or outputs. *)
Definition plain_arguments (positional kwarg_only : list Argument) : Arguments :=
  {| pre_self_positional := []; self_arg := None;
     post_self_positional := positional;
     pre_tensor_options_kwarg_only := kwarg_only;
     tensor_options := None; post_tensor_options_kwarg_only := [];
     arguments_out := [] |}.

(** [numpy_sin(Tensor x) -> Tensor] *)
Definition sin_schema : FunctionSchema :=
  {| name := op_named "numpy_sin";
     arguments := plain_arguments [tensor_arg "x"] [];
     returns := [plain_return] |}.

(** [numpy_take(Tensor x, *, int dim) -> Tensor] *)
Definition take_schema : FunctionSchema :=
  {| name := op_named "numpy_take";
     arguments := plain_arguments [tensor_arg "x"] [int_arg "dim"];
     returns := [plain_return] |}.

(** [alias(Tensor(a) x) -> Tensor(a)] *)
Definition view_schema : FunctionSchema :=
  {| name := op_named "alias";
     arguments := plain_arguments [tensor_arg "x"] [];
     returns := [view_return] |}.

(** [scale(Tensor x, *, int self) -> Tensor]: [self] is keyword-only, so the
    parser leaves it among the keyword-only arguments. *)
Definition kwself_schema : FunctionSchema :=
  {| name := op_named "scale";
     arguments := plain_arguments [tensor_arg "x"] [int_arg "self"];
     returns := [plain_return] |}.

Definition option_arg (n t : string) : Argument :=
  {| arg_name := n; arg_type := t; arg_annotation := None |}.

(** [my_empty_like(Tensor x, *, ScalarType? dtype=None, Layout? layout=None,
    Device? device=None, bool? pin_memory=None) -> Tensor]: the parser folds
    the four keyword-only arguments into the tensor-options group. *)
Definition options_schema : FunctionSchema :=
  {| name := op_named "my_empty_like";
     arguments :=
       {| pre_self_positional := []; self_arg := None;
          post_self_positional := [tensor_arg "x"];
          pre_tensor_options_kwarg_only := [];
          tensor_options :=
            Some {| dtype := option_arg "dtype" "ScalarType?";
                    layout := option_arg "layout" "Layout?";
                    device := option_arg "device" "Device?";
                    pin_memory := option_arg "pin_memory" "bool?" |};
          post_tensor_options_kwarg_only := [];
          arguments_out := [] |};
     returns := [plain_return] |}.

Definition options_schema_text : string :=
  "(Tensor x, *, ScalarType? dtype=None, Layout? layout=None, "
  +:+ "Device? device=None, bool? pin_memory=None) -> Tensor".

Definition table : list (string * FunctionSchema) :=
  [ ("numpy_sin(Tensor x) -> Tensor", sin_schema);
    ("numpy_take(Tensor x, *, int dim) -> Tensor", take_schema);
    ("alias(Tensor(a) x) -> Tensor(a)", view_schema);
    ("scale(Tensor x, *, int self) -> Tensor", kwself_schema);
    ("my_empty_like" +:+ options_schema_text, options_schema) ].

Definition writes (a : Argument) : bool :=
  match arg_annotation a with Some n => is_write n | None => false end.

Definition all_arguments (a : Arguments) : list Argument := flat_all a.

(** A table-driven stand-in for torchgen. *)
#[export] Instance torchgen : Torchgen := {|
  parse s :=
    match find (fun e => String.eqb (fst e) s) table with
    | Some e => Ok (snd e)
    | None => Raise (OtherError ("cannot parse " +:+ s))
    end;
  kind fs :=
    if existsb writes (all_arguments (arguments fs)) then mutable else functional;
  has_tensor_arg a :=
    existsb (fun x => String.eqb (arg_type x) "Tensor") (all_arguments a);
  str_FunctionSchema fs := base (opn_name (name fs)) +:+ "(...)";
  str_OperatorName n :=
    match overload_name n with
    | Some o => base (opn_name n) +:+ "." +:+ o
    | None => base (opn_name n)
    end;
  str_BaseOperatorName b := base b
|}.

Definition def (n : string) (a k : list string) : PyFunction :=
  {| __name__ := n; __module__ := "__main__"; __doc__ := None;
     args := a; kwonlyargs := k |}.

Definition numpy_sin : PyFunction := def "numpy_sin" ["x"] [].
Definition numpy_take : PyFunction := def "numpy_take" ["x"] ["dim"].
Definition numpy_take_wrong : PyFunction := def "numpy_take" ["x"] ["axis"].
Definition alias : PyFunction := def "alias" ["x"] [].

(** [def scale(x, *, self): ...] *)
Definition scale : PyFunction := def "scale" ["x"] ["self"].

(** [def my_empty_like(x, *, dtype=None, layout=None, device=None,
    pin_memory=None): ...], whose signature is the schema's, and
    [def my_empty_like(x): ...], which lacks its keyword-only parameters. *)
Definition my_empty_like_exact : PyFunction :=
  def "my_empty_like" ["x"] ["dtype"; "layout"; "device"; "pin_memory"].
Definition my_empty_like_short : PyFunction := def "my_empty_like" ["x"] [].

(** A fake implementation whose body is [return get_ctx()], and one that
    returns [None]. *)
Definition asks_ctx : PyFunction := def "asks_ctx" ["x"] [].
Definition returns_none : PyFunction := def "returns_none" ["x"] [].

#[export] Instance host : Host := {|
  _dispatch_call_boxed h a k := gets (fun w => VBool (autograd_excluded w));
  call_function f a k :=
    if String.eqb (__name__ f) "asks_ctx" then get_ctx else ret VNone
|}.

Definition numpy_sin_impl : PyFunction := def "numpy_sin_impl" ["x"] [].

(** The operator name [numpy_sin.out]: the base name of [numpy_sin] with an
    overload. *)
Definition sin_out : OperatorName :=
  {| opn_name := {| base := "numpy_sin" |}; overload_name := Some "out" |}.

Definition frame1 : FrameInfo := {| filename := "ops.py"; lineno := 12 |}.
Definition frame2 : FrameInfo := {| filename := "other.py"; lineno := 40 |}.

Definition x_grad : PyVal := VTensor {| tensor_id := 0; requires_grad := true |}.
Definition x_plain : PyVal := VTensor {| tensor_id := 1; requires_grad := false |}.

End Sample.

(** * benchmarks/dynamo/microbenchmarks/tensor_layout_mini_benchmark.py

    The script imports torch, [torch._inductor.ir] and
    [torch._inductor.utils]; none of them is defined in it.  Their
    operations are the parameters of the class [Torch]: tensors are values
    with operations that return or raise, and whatever acts on the device,
    the random generator, the profiler or the clock is a transformer of the
    hidden state [machine]. *)

Module LayoutBenchmark.

Record ConvKwargs := {
  kw_stride : list Z;
  kw_padding : list Z;
  kw_dilation : list Z;
  kw_transposed : bool;
  kw_output_padding : list Z;
  kw_groups : Z
}.

Class Torch := {
  tensor : Type;
  float : Type;
  profiler : Type;
  machine : Type;
  dim : tensor -> nat;
  shape : tensor -> list N;
  clone : tensor -> result tensor;
  as_strided : tensor -> list N -> list N -> result tensor;
  copy_ : tensor -> tensor -> result tensor;
  stride_ordered : list N -> list nat -> result (list N);
  allclose : tensor -> tensor -> float -> float -> result bool;
  head_slice : tensor -> result tensor;
  repr_tensor : tensor -> string;
  float_of_decimal : Z -> Z -> float;
  float_div : float -> float -> result float;
  str_float : float -> string;
  format_3f : float -> string;
  rand : list N -> machine -> result tensor * machine;
  cuda : tensor -> machine -> result tensor * machine;
  convolution : tensor -> tensor -> option tensor -> ConvKwargs ->
                machine -> result tensor * machine;
  cuda_synchronize : machine -> result unit * machine;
  profile_enter : bool -> machine -> result profiler * machine;
  profile_exit : profiler -> machine -> result unit * machine;
  export_chrome_trace : profiler -> string -> machine -> result unit * machine;
  do_bench : (machine -> result tensor * machine) -> nat ->
             machine -> result float * machine
}.

Definition rbind {A B} (r : result A) (k : A -> result B) : result B :=
  match r with
  | Ok a => k a
  | Raise e => Raise e
  end.

Notation "'let?' x ':=' r 'in' k" := (rbind r (fun x => k))
  (at level 10, x name, r at level 100, k at level 200).

(** What the script acts on: the hidden state of torch and what it has
    printed. *)
Record BenchState (machine : Type) := { mach : machine; stdout : list string }.
Arguments mach {machine} _.
Arguments stdout {machine} _.

Section Script.
Context `{T : Torch}.

Definition B (A : Type) : Type :=
  BenchState machine -> result A * BenchState machine.

Definition bret {A} (a : A) : B A := fun s => (Ok a, s).
Definition braise {A} (e : exn) : B A := fun s => (Raise e, s).
Definition blift {A} (r : result A) : B A := fun s => (r, s).

Definition on_machine {A} (op : machine -> result A * machine) : B A :=
  fun s =>
    let '(r, m) := op (mach s) in
    (r, {| mach := m; stdout := stdout s |}).

Definition print (line : string) : B unit :=
  fun s => (Ok tt, {| mach := mach s; stdout := stdout s ++ [line] |}).

Definition bbind {A C} (m : B A) (k : A -> B C) : B C :=
  fun s =>
    match m s with
    | (Ok a, s') => k a s'
    | (Raise e, s') => (Raise e, s')
    end.

(** The exit of a [with] block: it runs on both ways out, and the outcome of
    the body stands unless the exit itself raises. *)
Definition bfinally {A} (body : B A) (fin : B unit) : B A :=
  fun s =>
    let '(r, s') := body s in
    match fin s' with
    | (Ok _, s'') => (r, s'')
    | (Raise e, s'') => (Raise e, s'')
    end.

Notation "'let+' x ':=' m 'in' k" := (bbind m (fun x => k))
  (at level 10, x name, m at level 100, k at level 200).

(** The defaults of [torch.allclose]: [rtol=1e-05] and [atol=1e-08]. *)
Definition rtol_default : float := float_of_decimal 1 (-5).
Definition atol_default : float := float_of_decimal 1 (-8).

Definition to_channels_last (x : tensor) : result tensor :=
  if negb (dim x =? 4)%nat then Raise (AssertionError EmptyString)
  else
    let stride_order := [3; 0; 2; 1]%nat in
    let? c := clone x in
    let? strides := stride_ordered (shape x) stride_order in
    let? y := as_strided c (shape x) strides in
    let? y := copy_ y x in
    let? close := allclose x y rtol_default atol_default in
    if negb close then Raise (AssertionError EmptyString) else Ok y.

Definition conv_kwargs : ConvKwargs :=
  {| kw_stride := [2; 2]%Z; kw_padding := [3; 3]%Z; kw_dilation := [1; 1]%Z;
     kw_transposed := false; kw_output_padding := [0; 0]%Z; kw_groups := 1%Z |}.

(** The closures [baseline_fn] and [test_fn]. *)
Definition BenchFn : Type := machine -> result tensor * machine.

(** [bench_conv] from its first line to [p.export_chrome_trace]: the two
    closures and the outputs they gave under the profiler. *)
Definition bench_conv_outputs (with_stack : bool)
    : B (BenchFn * BenchFn * tensor * tensor) :=
  let+ x := on_machine (rand [256; 3; 224; 224]%N) in
  let+ x := on_machine (cuda x) in
  let+ weight := on_machine (rand [64; 3; 7; 7]%N) in
  let+ weight := on_machine (cuda weight) in
  let+ x_chan := blift (to_channels_last x) in
  let+ weight_chan := blift (to_channels_last weight) in
  let baseline_fn : BenchFn := convolution x weight None conv_kwargs in
  let test_fn : BenchFn := convolution x_chan weight None conv_kwargs in
  let+ warm1 := on_machine baseline_fn in
  let+ warm2 := on_machine test_fn in
  let+ sync1 := on_machine cuda_synchronize in
  let+ p := on_machine (profile_enter with_stack) in
  let+ outs :=
    bfinally
      (let+ baseline_out := on_machine baseline_fn in
       let+ test_out := on_machine test_fn in
       let+ sync2 := on_machine cuda_synchronize in
       bret (baseline_out, test_out))
      (on_machine (profile_exit p)) in
  let+ exported := on_machine (export_chrome_trace p "/tmp/chrome.json") in
  bret (baseline_fn, test_fn, fst outs, snd outs).

(** [bench_conv] after its assertion: the two timings and the printed line. *)
Definition bench_conv_report (baseline_fn test_fn : BenchFn) : B unit :=
  let+ baseline_ms := on_machine (do_bench baseline_fn 40) in
  let+ test_ms := on_machine (do_bench test_fn 40) in
  let+ ratio := blift (float_div baseline_ms test_ms) in
  print ("conv baseline " +:+ str_float baseline_ms +:+ " test "
         +:+ str_float test_ms +:+ " speedup " +:+ format_3f ratio +:+ "x").

(** The message of the assertion: the pair of the two leading slices. *)
Definition mismatch_message (sb st : tensor) : string :=
  "(" +:+ repr_tensor sb +:+ ", " +:+ repr_tensor st +:+ ")".

Definition bench_conv (with_stack : bool) : B unit :=
  let+ r := bench_conv_outputs with_stack in
  let '(baseline_fn, test_fn, baseline_out, test_out) := r in
  let+ close :=
    blift (allclose baseline_out test_out
             (float_of_decimal 1 (-3)) (float_of_decimal 1 (-3))) in
  if negb close then
    let+ sb := blift (head_slice baseline_out) in
    let+ st := blift (head_slice test_out) in
    braise (AssertionError (mismatch_message sb st))
  else bench_conv_report baseline_fn test_fn.

Definition main : B unit := bench_conv true.

End Script.

(** A small torch to run the script on: every tensor is filled with one
    value, a number in units of 1e-8 or NaN; [cl_error] is what a kernel adds
    to its output when its input is not contiguous. *)
Module Small.

Record tensor_ := {
  t_shape : list N;
  t_stride : list N;
  t_fill : option Z
}.

Record machine_ := { next_fill : Z; cl_error : Z; clock : Z }.

Fixpoint index_of (i : nat) (l : list nat) : option nat :=
  match l with
  | [] => None
  | x :: l' => if (x =? i)%nat then Some 0%nat else S <$> index_of i l'
  end.

(** [FlexibleLayout.stride_ordered]: position [order.index(i)] gets the
    product of the sizes at the positions of the smaller ranks. *)
Fixpoint fill_strides (sizes : list N) (order : list nat) (ranks : list nat)
    (next : N) (strides : list N) : result (list N) :=
  match ranks with
  | [] => Ok strides
  | i :: ranks' =>
      match index_of i order with
      | None => Raise (AssertionError EmptyString)
      | Some pos =>
          fill_strides sizes order ranks' (next * sizes !!! pos)%N
            (<[pos := next]> strides)
      end
  end.

Definition stride_ordered_ (sizes : list N) (order : list nat) : result (list N) :=
  if negb (length sizes =? length order)%nat then Raise (AssertionError EmptyString)
  else fill_strides sizes order (seq 0 (length order)) 1%N (replicate (length order) 0%N).

Definition contiguous_strides (sizes : list N) : list N :=
  match stride_ordered_ sizes (rev (seq 0 (length sizes))) with
  | Ok st => st
  | Raise _ => []
  end.

Definition same_shape (a b : tensor_) : bool :=
  bool_decide (t_shape a = t_shape b).

(** [|a - b| <= atol + rtol * |b|], false as soon as NaN is involved. *)
Definition close (rtol atol : Z) (a b : option Z) : bool :=
  match a, b with
  | Some a, Some b =>
      (Z.abs (a - b) * 100000000 <=? atol * 100000000 + rtol * Z.abs b)%Z
  | _, _ => false
  end.

Definition conv_out (x w : tensor_) (m : machine_) : tensor_ :=
  let sz := [t_shape x !!! 0%nat; t_shape w !!! 0%nat;
             (t_shape x !!! 2%nat + 6 - t_shape w !!! 2%nat) / 2 + 1;
             (t_shape x !!! 3%nat + 6 - t_shape w !!! 3%nat) / 2 + 1]%N in
  let err := if bool_decide (t_stride x = contiguous_strides (t_shape x))
             then 0%Z else cl_error m in
  {| t_shape := sz; t_stride := contiguous_strides sz;
     t_fill := match t_fill x, t_fill w with
               | Some a, Some b => Some (a * b / 100000000 + err)%Z
               | _, _ => None
               end |}.

#[export] Instance torch : Torch := {|
  tensor := tensor_;
  float := Z;
  profiler := bool;
  machine := machine_;
  dim t := length (t_shape t);
  shape := t_shape;
  clone t := Ok {| t_shape := t_shape t;
                   t_stride := contiguous_strides (t_shape t);
                   t_fill := t_fill t |};
  as_strided t sz st := Ok {| t_shape := sz; t_stride := st; t_fill := t_fill t |};
  copy_ y x :=
    if same_shape y x
    then Ok {| t_shape := t_shape y; t_stride := t_stride y; t_fill := t_fill x |}
    else Raise (RuntimeError "The size of tensor a must match the size of tensor b");
  stride_ordered := stride_ordered_;
  allclose a b rtol atol :=
    if same_shape a b then Ok (close rtol atol (t_fill a) (t_fill b))
    else Raise (RuntimeError "The size of tensor a must match the size of tensor b");
  head_slice t := Ok {| t_shape := [N.min 32 (t_shape t !!! 3%nat)];
                        t_stride := [1%N]; t_fill := t_fill t |};
  repr_tensor t := match t_fill t with
                   | Some v => "tensor(" +:+ pretty v +:+ ")"
                   | None => "tensor(nan)"
                   end;
  float_of_decimal m e := (m * 10 ^ (8 + e))%Z;
  float_div a b :=
    if (b =? 0)%Z then Raise (OtherError "ZeroDivisionError: float division by zero")
    else Ok (a * 100000000 / b)%Z;
  str_float := pretty;
  format_3f := pretty;
  rand sz m :=
    (Ok {| t_shape := sz; t_stride := contiguous_strides sz;
           t_fill := Some (next_fill m) |},
     {| next_fill := next_fill m + 10000000; cl_error := cl_error m;
        clock := clock m |});
  cuda t m := (Ok t, m);
  convolution x w bias kw m := (Ok (conv_out x w m), m);
  cuda_synchronize m := (Ok tt, m);
  profile_enter with_stack m := (Ok with_stack, m);
  profile_exit p m := (Ok tt, m);
  export_chrome_trace p path m := (Ok tt, m);
  do_bench fn rep m :=
    (Ok (Z.of_nat rep * 100000000)%Z,
     {| next_fill := next_fill m; cl_error := cl_error m;
        clock := clock m + Z.of_nat rep |})
|}.

Definition filled (sz : list N) (v : option Z) : tensor_ :=
  {| t_shape := sz; t_stride := contiguous_strides sz; t_fill := v |}.

(** A 2x3x4x5 tensor of 0.5, and one of NaN. *)
Definition x_half : tensor_ := filled [2; 3; 4; 5]%N (Some 50000000%Z).
Definition x_nan : tensor_ := filled [2; 3; 4; 5]%N None.

(** A machine whose kernels agree on both layouts, and one whose kernel is
    off by 0.01 on a channels-last input. *)
Definition sound_machine : machine_ :=
  {| next_fill := 10000000; cl_error := 0; clock := 0 |}.
Definition faulty_machine : machine_ :=
  {| next_fill := 10000000; cl_error := 1000000; clock := 0 |}.

Definition start (m : machine_) : BenchState machine_ :=
  {| mach := m; stdout := [] |}.

End Small.

End LayoutBenchmark.

(** ** Vocabulary of the properties *)

Section Vocabulary.
Context `{TG : Torchgen}.

Definition non_functional (fs : FunctionSchema) : Prop := kind fs <> functional.

Definition returns_aliasing_view (fs : FunctionSchema) : Prop :=
  exists r a, r ∈ returns fs /\ annotation r = Some a /\ is_write a = false.

Definition zero_tensor_inputs (fs : FunctionSchema) : Prop :=
  has_tensor_arg (arguments fs) = false.

Definition zero_outputs (fs : FunctionSchema) : Prop := returns fs = [].

(** The schema has a [self] argument in torchgen's sense: its [self_arg]
    slot, which holds a positional parameter named [self], is filled. *)
Definition declares_self (fs : FunctionSchema) : Prop :=
  self_arg (arguments fs) <> None.

(** Some parameter the schema declares, in whatever position, is named
    [self]. *)
Definition declares_parameter_named_self (fs : FunctionSchema) : Prop :=
  exists a, a ∈ flat_all (arguments fs) /\ arg_name a = "self".

(** The five shapes of schema that registration turns away. *)
Definition rejected_schema (fs : FunctionSchema) : Prop :=
  non_functional fs \/ returns_aliasing_view fs \/ zero_tensor_inputs fs
  \/ zero_outputs fs \/ declares_self fs.

(** The positional and the keyword-only parameter names a schema declares. *)
Definition declared_positional_names (fs : FunctionSchema) : list string :=
  map arg_name (flat_positional (arguments fs)).

Definition declared_kwonly_names (fs : FunctionSchema) : list string :=
  map arg_name (flat_kwarg_only (arguments fs) ++ arguments_out (arguments fs)).

(** The two name lists that [validate_function_matches_schema] compares with
    the function's: the positional parameters after [self], and the
    keyword-only parameters that come before the tensor-options group. *)
Definition compared_positional_names (fs : FunctionSchema) : list string :=
  map arg_name (post_self_positional (arguments fs)).

Definition compared_kwonly_names (fs : FunctionSchema) : list string :=
  map arg_name (pre_tensor_options_kwarg_only (arguments fs)).

Definition compared_names_match (fs : FunctionSchema) (fn : PyFunction) : Prop :=
  compared_positional_names fs = args fn /\ compared_kwonly_names fs = kwonlyargs fn.

End Vocabulary.

(** Every size the environment has handed out is below its counter. *)
Definition ShapeEnv_wf (env : ShapeEnv) : Prop :=
  forall n, is_Some (var_to_range env !! n) -> n < unbacked_symint_counter env.

(** The state after [@custom_op('(Tensor x) -> Tensor', ns='mylib')] has been
    applied to [numpy_sin] at import time, and the object it created. *)
Definition registered : World :=
  Eval vm_compute in
    snd (custom_op (TG := Sample.torchgen) "(Tensor x) -> Tensor" "mylib"
           (PFunction Sample.numpy_sin) initial_world).

Definition sin_op : CustomOp :=
  {| _lib := {| lib_ns := "mylib"; lib_kind := "FRAGMENT" |};
     _ophandle := ("mylib::numpy_sin", EmptyString);
     _opname := "numpy_sin"; _qualname := "mylib::numpy_sin";
     self__name__ := Some "numpy_sin"; self__module__ := Some "__main__";
     self__doc__ := None; _fake_impl := None |}.

(** ** Properties *)

Lemma contains_middle (pre sub post : string) : contains sub (pre +:+ sub +:+ post).
Proof. exists pre, post. reflexivity. Qed.

Lemma append_cons (x : Ascii.ascii) (a b : string) :
  String x a +:+ b = String x (a +:+ b).
Proof. reflexivity. Qed.

Lemma string_app_assoc (a b c : string) : (a +:+ b) +:+ c = a +:+ (b +:+ c).
Proof.
  induction a as [|x a IH]; [reflexivity |].
  rewrite !append_cons. now rewrite IH.
Qed.

Lemma string_app_empty_r (a : string) : a +:+ EmptyString = a.
Proof.
  induction a as [|x a IH]; [reflexivity |].
  rewrite append_cons. now rewrite IH.
Qed.

Lemma contains_suffix (pre sub : string) : contains sub (pre +:+ sub).
Proof. exists pre, EmptyString. now rewrite string_app_empty_r. Qed.

Lemma contains_trans (a b c : string) : contains a b -> contains b c -> contains a c.
Proof.
  intros (p1 & q1 & ->) (p2 & q2 & ->).
  exists (p2 +:+ p1), (q1 +:+ q2).
  now rewrite !string_app_assoc.
Qed.

Lemma contains_app_l (a b c : string) : contains a b -> contains a (b +:+ c).
Proof.
  intros (p & q & ->). exists p, (q +:+ c). now rewrite !string_app_assoc.
Qed.

Lemma contains_app_r (a b c : string) : contains a c -> contains a (b +:+ c).
Proof.
  intros (p & q & ->). exists (b +:+ p), q. now rewrite !string_app_assoc.
Qed.

Lemma validate_namespace_cases (ns : string) :
  validate_namespace ns = Ok tt
  \/ exists msg, validate_namespace ns = Raise (ValueError msg).
Proof.
  unfold validate_namespace.
  destruct (has_char "." ns); [right; eauto |].
  destruct (bool_decide (ns ∈ RESERVED_NS)); [right; eauto | now left].
Qed.

Section Properties.
Context `{TG : Torchgen} `{HS : Host}.

Lemma is_non_mutating_view_spec (rets : list Return) :
  is_non_mutating_view rets = true
  <-> exists r a, r ∈ rets /\ annotation r = Some a /\ is_write a = false.
Proof.
  unfold is_non_mutating_view. split.
  - intros [_ H]%andb_prop. apply existsb_exists in H as (r & Hin & Hr).
    unfold non_write_alias in Hr. destruct (annotation r) as [a|] eqn:Ha; [|done].
    exists r, a. split; [by apply list_elem_of_In |].
    split; [done | by destruct (is_write a)].
  - intros (r & a & Hin & Ha & Hw). apply andb_true_intro. split.
    + destruct rets; [by apply elem_of_nil in Hin | done].
    + apply existsb_exists. exists r. rewrite <- list_elem_of_In. split; [done|].
      unfold non_write_alias. now rewrite Ha, Hw.
Qed.

Lemma validate_schema_cases (fs : FunctionSchema) :
  validate_schema fs = Ok tt
  \/ exists msg, validate_schema fs = Raise (ValueError msg).
Proof.
  unfold validate_schema.
  repeat match goal with
         | |- context [if ?c then _ else _] => destruct c; [right; eauto |]
         end.
  now left.
Qed.

Lemma validate_schema_rejects (fs : FunctionSchema) :
  rejected_schema fs -> exists msg, validate_schema fs = Raise (ValueError msg).
Proof.
  intros Hbad.
  destruct (validate_schema_cases fs) as [Hok | Hr]; [exfalso | exact Hr].
  revert Hok. unfold validate_schema.
  destruct (kind fs) eqn:Hk; simpl; try discriminate.
  destruct (is_non_mutating_view (returns fs)) eqn:Hv; [discriminate |].
  destruct (has_tensor_arg (arguments fs)) eqn:Ht; simpl; [| discriminate].
  destruct (returns fs) as [| r0 rs] eqn:Hr; [discriminate |].
  destruct (self_arg (arguments fs)) eqn:Hs; [discriminate |].
  intros _.
  destruct Hbad as [H | [H | [H | [H | H]]]].
  - now apply H.
  - unfold returns_aliasing_view in H. rewrite Hr in H.
    apply is_non_mutating_view_spec in H. congruence.
  - unfold zero_tensor_inputs in H. congruence.
  - unfold zero_outputs in H. congruence.
  - now apply H.
Qed.

Lemma validate_schema_accepts (fs : FunctionSchema) :
  ~ rejected_schema fs -> validate_schema fs = Ok tt.
Proof.
  intros Hgood. unfold validate_schema.
  destruct (kind fs) eqn:Hk; simpl;
    try (exfalso; apply Hgood; left; unfold non_functional; congruence).
  destruct (is_non_mutating_view (returns fs)) eqn:Hv.
  { exfalso. apply Hgood. right; left. now apply is_non_mutating_view_spec. }
  destruct (has_tensor_arg (arguments fs)) eqn:Ht; simpl.
  2: { exfalso. apply Hgood. right; right; left. exact Ht. }
  destruct (returns fs) as [| r0 rs] eqn:Hr.
  { exfalso. apply Hgood. right; right; right; left. exact Hr. }
  destruct (self_arg (arguments fs)) eqn:Hs; [| reflexivity].
  exfalso. apply Hgood. right; right; right; right.
  unfold declares_self. congruence.
Qed.

(** C1: a schema that is non-functional, returns an aliasing view, has no
    tensor input, has no output or has a [self] argument (a positional
    parameter named [self], torchgen's [self_arg]) makes [validate_schema]
    raise a ValueError, and makes the decorator raise a ValueError with the
    whole process state, dispatcher included, as it was before the call; for
    a function and a namespace that pass the earlier checks the error is the
    one of [validate_schema]. *)
Theorem rejected_schema_fails_before_dispatcher
    (schema ns : string) (func : PyObj) (fs : FunctionSchema) (w : World) :
  rejected_schema fs ->
  (forall fn, func = PFunction fn -> parse (__name__ fn +:+ schema) = Ok fs) ->
  exists msg,
    validate_schema fs = Raise (ValueError msg)
    /\ (exists msg', custom_op schema ns func w = (Raise (ValueError msg'), w))
    /\ (isfunction func = true -> validate_namespace ns = Ok tt ->
        custom_op schema ns func w = (Raise (ValueError msg), w)).
Proof.
  intros Hbad Hparse.
  destruct (validate_schema_rejects fs Hbad) as [msg Hmsg].
  exists msg. split; [exact Hmsg |].
  unfold custom_op, custom_op_inner.
  destruct func as [fn | ty]; [| split; [unfold raise; eauto | discriminate]].
  specialize (Hparse fn eq_refl).
  unfold bind, lift. split.
  - destruct (validate_namespace_cases ns) as [-> | [m ->]]; [| eauto].
    rewrite Hparse, Hmsg. eauto.
  - intros _ ->. now rewrite Hparse, Hmsg.
Qed.

Lemma validate_function_matches_schema_cases (fs : FunctionSchema) (fn : PyFunction) :
  (compared_names_match fs fn /\ validate_function_matches_schema fs fn = Ok tt)
  \/ (~ compared_names_match fs fn
      /\ exists msg, validate_function_matches_schema fs fn = Raise (ValueError msg)).
Proof.
  unfold validate_function_matches_schema, compared_names_match,
    compared_positional_names, compared_kwonly_names.
  case_bool_decide as Hp; simpl.
  - case_bool_decide as Hk; simpl.
    + left. auto.
    + right. split; [tauto | eauto].
  - right. split; [tauto | eauto].
Qed.

(** What the check does with the two name lists it compares: for a schema
    that [validate_schema] accepts, a function whose names differ from either
    list makes [validate_function_matches_schema], and with it the decorator,
    raise a ValueError and leave the process state alone; when both lists
    agree the check returns. *)
Lemma signature_mismatch_rejected
    (schema ns : string) (fn : PyFunction) (fs : FunctionSchema) (w : World) :
  parse (__name__ fn +:+ schema) = Ok fs ->
  validate_schema fs = Ok tt ->
  (compared_names_match fs fn -> validate_function_matches_schema fs fn = Ok tt)
  /\ (compared_positional_names fs <> args fn \/ compared_kwonly_names fs <> kwonlyargs fn ->
      exists msg,
        validate_function_matches_schema fs fn = Raise (ValueError msg)
        /\ (exists msg',
              custom_op schema ns (PFunction fn) w = (Raise (ValueError msg'), w))
        /\ (validate_namespace ns = Ok tt ->
            custom_op schema ns (PFunction fn) w = (Raise (ValueError msg), w))).
Proof.
  intros Hparse Hvalid.
  destruct (validate_function_matches_schema_cases fs fn) as [[Hm Hok] | [Hm [msg Hr]]].
  - split; [auto |]. intros [H | H]; destruct Hm; contradiction.
  - split; [intros; contradiction |]. intros _.
    exists msg. split; [exact Hr |].
    unfold custom_op, custom_op_inner, bind, lift. split.
    + destruct (validate_namespace_cases ns) as [-> | [m ->]]; [| eauto].
      rewrite Hparse, Hvalid, Hr. eauto.
    + intros ->. now rewrite Hparse, Hvalid, Hr.
Qed.

(** C9: a value that is not a Python function makes the decorator raise a
    ValueError whose message ends with the value's type, whatever the
    namespace and the schema string are, and with the process state as it
    was before the call. *)
Theorem non_function_rejected_first
    (schema ns : string) (func : PyObj) (w : World) :
  isfunction func = false ->
  custom_op schema ns func w
  = (Raise (ValueError ("custom_op(...)(func): Expected `func` to be a Python "
                        +:+ "function, got: " +:+ str_type func)), w)
  /\ contains (str_type func)
       ("custom_op(...)(func): Expected `func` to be a Python "
        +:+ "function, got: " +:+ str_type func).
Proof.
  intros Hf. destruct func as [fn | ty]; [discriminate |].
  split; [reflexivity |].
  apply contains_app_r, contains_suffix.
Qed.

End Properties.

Lemma contains_prefix (sub post : string) : contains sub (sub +:+ post).
Proof. exists EmptyString, post. reflexivity. Qed.

(** The message of [error_on_ctx] names the operator and the place where the
    fake implementation was registered. *)
Lemma error_on_ctx_message (qualname new_location : string) (w : World) :
  exists msg,
    call_ctx_getter (error_on_ctx qualname new_location) w
    = (Raise (RuntimeError msg), w)
    /\ contains qualname msg /\ contains new_location msg.
Proof.
  eexists. split; [reflexivity |]. split.
  - do 2 apply contains_app_r. apply contains_prefix.
  - do 9 apply contains_app_r. apply contains_suffix.
Qed.

Section StatefulProperties.
Context `{TG : Torchgen} `{HS : Host}.

Lemma set_ctx_getter_unfold {A} (g : CtxGetter) (body : M A) (w : World) :
  set_ctx_getter g body w
  = (fst (body (set_global_ctx_getter g w)),
     set_global_ctx_getter (global_ctx_getter w)
       (snd (body (set_global_ctx_getter g w)))).
Proof.
  unfold set_ctx_getter, try_finally, bind, gets, modify. simpl.
  destruct (body (set_global_ctx_getter g w)) as [[a | e] w']; reflexivity.
Qed.

Lemma get_ctx_unfold (w : World) :
  get_ctx w = call_ctx_getter (global_ctx_getter w) w.
Proof. reflexivity. Qed.

Lemma global_ctx_getter_set (g : CtxGetter) (w : World) :
  global_ctx_getter (set_global_ctx_getter g w) = g.
Proof. reflexivity. Qed.

Lemma set_global_ctx_getter_back (g : CtxGetter) (w : World) :
  set_global_ctx_getter (global_ctx_getter w) (set_global_ctx_getter g w) = w.
Proof. now destruct w. Qed.

(** C5: around every call of a fake implementation through [f_with_ctx],
    whether the implementation returns or raises, the outcome is the
    implementation's own and [global_ctx_getter] ends up holding the value it
    held before the call. *)
Theorem f_with_ctx_restores_ctx_getter
    (f : PyFunction) (qualname new_location : string)
    (args : list PyVal) (kwargs : list (string * PyVal)) (w : World) :
  let inside := set_global_ctx_getter (error_on_ctx qualname new_location) w in
  (forall v w', call_function f args kwargs inside = (Ok v, w') ->
     f_with_ctx f qualname new_location args kwargs w
     = (Ok v, set_global_ctx_getter (global_ctx_getter w) w'))
  /\ (forall e w', call_function f args kwargs inside = (Raise e, w') ->
     f_with_ctx f qualname new_location args kwargs w
     = (Raise e, set_global_ctx_getter (global_ctx_getter w) w'))
  /\ global_ctx_getter (snd (f_with_ctx f qualname new_location args kwargs w))
     = global_ctx_getter w.
Proof.
  intros inside. unfold f_with_ctx. rewrite set_ctx_getter_unfold. fold inside.
  split; [| split].
  - intros v w' ->. reflexivity.
  - intros e w' ->. reflexivity.
  - reflexivity.
Qed.

(** C4, as the code has it: outside a fake call [get_ctx()] returns [None];
    called from a fake implementation that runs under [f_with_ctx] it raises
    a RuntimeError naming the operator and the place of the [impl_fake]
    registration; and it returns a context object exactly when
    [global_ctx_getter] holds a getter that returns that object, as it does
    inside a [set_ctx_getter] block given such a getter. *)
Theorem get_ctx_follows_the_getter
    (f : PyFunction) (qualname new_location : string)
    (args : list PyVal) (kwargs : list (string * PyVal)) (w : World) :
  global_ctx_getter w = get_none ->
  call_function f args kwargs = get_ctx ->
  get_ctx w = (Ok VNone, w)
  /\ (exists msg,
        f_with_ctx f qualname new_location args kwargs w
        = (Raise (RuntimeError msg), w)
        /\ contains qualname msg /\ contains new_location msg)
  /\ (forall c, set_ctx_getter (const_getter (VCtx c)) get_ctx w = (Ok (VCtx c), w))
  /\ (forall w2 c,
        (exists w2', get_ctx w2 = (Ok (VCtx c), w2'))
        <-> global_ctx_getter w2 = const_getter (VCtx c)).
Proof.
  intros Hout Hbody. split; [| split; [| split]].
  - rewrite get_ctx_unfold, Hout. reflexivity.
  - unfold f_with_ctx. rewrite set_ctx_getter_unfold, Hbody.
    rewrite get_ctx_unfold, global_ctx_getter_set.
    destruct (error_on_ctx_message qualname new_location
                (set_global_ctx_getter (error_on_ctx qualname new_location) w))
      as (msg & Hmsg & Hq & Hl).
    exists msg. rewrite Hmsg. simpl fst. simpl snd.
    rewrite set_global_ctx_getter_back. auto.
  - intros c. rewrite set_ctx_getter_unfold.
    rewrite get_ctx_unfold, global_ctx_getter_set. simpl.
    now rewrite (set_global_ctx_getter_back (const_getter (VCtx c)) w).
  - intros w2 c. rewrite get_ctx_unfold. split.
    + intros [w2' H]. destruct (global_ctx_getter w2) as [| q l | v]; simpl in H.
      * discriminate.
      * discriminate.
      * injection H as -> _. reflexivity.
    + intros ->. exists w2. reflexivity.
Qed.

Lemma deref_Some (self : nat) (op : CustomOp) (w : World) :
  heap w !! self = Some op -> deref self w = (Ok op, w).
Proof. intros H. unfold deref, bind, gets. now rewrite H. Qed.

Lemma impl_fake_inner_again
    (self : nat) (op : CustomOp) (fl : FuncAndLocation)
    (g : PyFunction) (frame : FrameInfo) (w : World) :
  heap w !! self = Some op -> _fake_impl op = Some fl ->
  exists msg,
    impl_fake_inner self g frame w = (Raise (RuntimeError msg), w)
    /\ contains (location fl) msg.
Proof.
  intros Hop Hfake. unfold impl_fake_inner, bind.
  rewrite (deref_Some _ _ _ Hop), Hfake.
  eexists. split; [reflexivity |].
  do 4 apply contains_app_r. apply contains_prefix.
Qed.

(** C3: on a CustomOp without a fake implementation the decorator of
    [impl_fake()] returns and records the function with the caller's
    [file:line]; from then on, while that record stands, every further
    attempt raises a RuntimeError whose message contains that file and line
    and changes nothing, the recorded implementation included. *)
Theorem impl_fake_registers_once
    (self : nat) (op : CustomOp) (f : PyFunction) (frame : FrameInfo) (w : World) :
  heap w !! self = Some op ->
  _fake_impl op = None ->
  let loc := filename frame +:+ ":" +:+ pretty (lineno frame) in
  exists w1 op1,
    impl_fake_inner self f frame w = (Ok f, w1)
    /\ heap w1 !! self = Some op1
    /\ _fake_impl op1 = Some {| func := f; location := loc |}
    /\ forall (g : PyFunction) (frame' : FrameInfo) (w2 : World) (op2 : CustomOp),
         heap w2 !! self = Some op2 ->
         _fake_impl op2 = _fake_impl op1 ->
         exists msg,
           impl_fake_inner self g frame' w2 = (Raise (RuntimeError msg), w2)
           /\ contains (filename frame) msg
           /\ contains (pretty (lineno frame)) msg
           /\ contains loc msg.
Proof.
  intros Hop Hnone loc.
  assert (Hlt : self < length (heap w)) by (eapply lookup_lt_Some; eauto).
  unfold impl_fake_inner, bind.
  rewrite (deref_Some _ _ _ Hop), Hnone.
  unfold update, bind, modify. rewrite (deref_Some _ _ _ Hop).
  match goal with
  | |- context [deref self ?w'] =>
      rewrite (deref_Some self
        {| _lib := _lib op; _ophandle := _ophandle op; _opname := _opname op;
           _qualname := _qualname op; self__name__ := self__name__ op;
           self__module__ := self__module__ op; self__doc__ := self__doc__ op;
           _fake_impl := Some {| func := f; location := loc |} |} w')
        by (simpl; now apply list_lookup_insert_eq)
  end.
  unfold Library_impl, modify, ret. simpl.
  eexists. eexists. split; [reflexivity |]. simpl.
  split; [now apply list_lookup_insert_eq |].
  split; [reflexivity |].
  intros g frame' w2 op2 Hop2 Hfake2. simpl in Hfake2.
  destruct (impl_fake_inner_again self op2 _ g frame' w2 Hop2 Hfake2)
    as (msg & Hmsg & Hloc).
  exists msg. split; [exact Hmsg |]. simpl in Hloc.
  split; [| split].
  - eapply contains_trans; [| exact Hloc]. apply contains_prefix.
  - eapply contains_trans; [| exact Hloc].
    apply contains_app_r, contains_suffix.
  - exact Hloc.
Qed.

End StatefulProperties.

Lemma lookup_last {A} (l : list A) (x : A) : (l ++ [x])%list !! length l = Some x.
Proof. by apply list_lookup_middle. Qed.

Lemma insert_last {A} (l : list A) (x y : A) :
  <[length l := y]> (l ++ [x])%list = (l ++ [y])%list.
Proof. rewrite insert_app_r_alt by lia. by rewrite Nat.sub_diag. Qed.

Lemma tree_leaves_args (args : list PyVal) (kwargs : list (string * PyVal)) :
  tree_leaves (VTuple [VTuple args; VDict kwargs])
  = (flat_map tree_leaves args ++ flat_map tree_leaves (map snd kwargs))%list.
Proof.
  simpl. rewrite app_nil_r. f_equal.
  induction kwargs as [| [k v] kwargs IH]; simpl; [reflexivity | now rewrite IH].
Qed.

Lemma tree_any_requires_grad (pytree : PyVal) :
  tree_any requires_grad_tensor pytree = true
  <-> exists t, VTensor t ∈ tree_leaves pytree /\ requires_grad t = true.
Proof.
  unfold tree_any. rewrite existsb_exists. split.
  - intros (x & Hin & Hx). destruct x; try discriminate.
    exists t. split; [by apply list_elem_of_In | exact Hx].
  - intros (t & Hin & Ht). exists (VTensor t).
    split; [by apply list_elem_of_In | exact Ht].
Qed.

Section Kernels.
Context `{TG : Torchgen} `{HS : Host}.


(** What a successful run of the decorator leaves behind. *)
Lemma custom_op_ok (schema ns : string) (func : PyObj) (w w' : World) (l : nat) :
  custom_op schema ns func w = (Ok l, w') ->
  exists fn fs op,
    func = PFunction fn
    /\ parse (__name__ fn +:+ schema) = Ok fs
    /\ l = length (heap w)
    /\ heap w' = (heap w ++ [op])%list
    /\ _qualname op = ns +:+ "::" +:+ str_BaseOperatorName (opn_name (name fs))
    /\ _opname op = str_OperatorName (name fs)
    /\ _fake_impl op = None
    /\ global_registry w' = <[_qualname op := l]> (global_registry w)
    /\ global_ctx_getter w' = global_ctx_getter w
    /\ kernels (dispatcher w')
       = (kernels (dispatcher w)
          ++ [(ns +:+ "::" +:+ _opname op, "Autograd", CAutogradNotImplemented l)])%list.
Proof.
  unfold custom_op, custom_op_inner.
  destruct func as [fn | ty]; [| discriminate].
  unfold bind at 1. unfold lift at 1.
  destruct (validate_namespace ns) as [[] | e]; [| discriminate].
  unfold bind at 1. unfold lift at 1.
  destruct (parse (__name__ fn +:+ schema)) as [fs | e] eqn:Hparse; [| discriminate].
  unfold bind at 1. unfold lift at 1.
  destruct (validate_schema fs) as [[] | e]; [| discriminate].
  unfold bind at 1. unfold lift at 1.
  destruct (validate_function_matches_schema fs fn) as [[] | e]; [| discriminate].
  unfold bind at 1. unfold Library_new, bind, modify, ret, Library_define, lift.
  cbn. rewrite Hparse. cbn.
  match goal with |- context [existsb ?p ?s] => destruct (existsb p s) end;
    [| discriminate].
  cbn. unfold bind, deref, gets, update, modify, ret. cbn.
  rewrite lookup_last. cbn.
  unfold bind, deref, gets, update, modify, ret. cbn.
  rewrite lookup_last. cbn.
  rewrite insert_last, lookup_last. cbn.
  intros [= <- <-].
  eexists fn, fs, _. split; [reflexivity |]. split; [exact Hparse |].
  repeat (split; [reflexivity |]). reflexivity.
Qed.

(** The kernel installed at registration is [autograd_not_implemented],
    closed over the new CustomOp. *)
Lemma custom_op_installs_autograd_kernel
    (schema ns : string) (func : PyObj) (w w' : World) (l : nat) :
  custom_op schema ns func w = (Ok l, w') ->
  exists opname,
    (ns +:+ "::" +:+ opname, "Autograd", get_autograd_not_implemented_kernel l)
      ∈ kernels (dispatcher w')
    /\ call_callable (get_autograd_not_implemented_kernel l)
       = autograd_not_implemented l.
Proof.
  intros H. apply custom_op_ok in H as (fn & fs & op & _ & _ & _ & _ & _ & _ & _ & _ & _ & Hk).
  exists (_opname op). split; [| reflexivity].
  rewrite Hk. apply elem_of_app. right. apply list_elem_of_singleton. reflexivity.
Qed.

(** C10: the constructor raises a RuntimeError, and registers nothing, unless
    it is given [_private_access=True]; a construction that succeeds has
    recorded the new object in [global_registry] under its qualified name
    [ns::name] by the time it returns, and so has every CustomOp that
    [custom_op] returns. *)
Theorem CustomOp_private_and_registered
    (lib : Library) (cpp_ns : string) (operator_name : OperatorName)
    (ophandle : OpHandle) (w : World) :
  (exists msg,
     CustomOp_init lib cpp_ns operator_name ophandle false w
     = (Raise (RuntimeError msg), w))
  /\ (exists self w' op,
        CustomOp_init lib cpp_ns operator_name ophandle true w = (Ok self, w')
        /\ heap w !! self = None
        /\ heap w' !! self = Some op
        /\ _qualname op
           = cpp_ns +:+ "::" +:+ str_BaseOperatorName (opn_name operator_name)
        /\ global_registry w' !! _qualname op = Some self)
  /\ (forall schema func l w',
        custom_op schema cpp_ns func w = (Ok l, w') ->
        exists op,
          heap w' !! l = Some op
          /\ global_registry w' !! _qualname op = Some l).
Proof.
  split; [| split].
  - unfold CustomOp_init, raise. simpl. eauto.
  - unfold CustomOp_init, bind, gets, modify, deref, bind, gets, ret.
    cbn [negb heap set_heap].
    rewrite lookup_last.
    eexists _, _, _. split; [reflexivity |].
    cbn [heap set_heap set_global_registry global_registry _qualname].
    split; [by apply lookup_ge_None_2 |].
    split; [by apply lookup_last |].
    split; [reflexivity |].
    apply lookup_insert_eq.
  - intros schema func l w' H.
    apply custom_op_ok in H
      as (fn & fs & op & _ & _ & -> & Hheap & _ & _ & _ & Hreg & _).
    exists op. split.
    + rewrite Hheap. by apply lookup_last.
    + rewrite Hreg. apply lookup_insert_eq.
Qed.

End Kernels.

(** ** The shape-inference context *)

Lemma create_unbacked_symint_fresh (env : ShapeEnv) :
  ShapeEnv_wf env ->
  var_to_range env !! symbol (create_unbacked_symint env).1 = None.
Proof.
  intros Hwf. simpl.
  destruct (var_to_range env !! unbacked_symint_counter env) eqn:H; [| done].
  assert (unbacked_symint_counter env < unbacked_symint_counter env)
    by (apply Hwf; eauto).
  lia.
Qed.

Lemma create_unbacked_symint_wf (env : ShapeEnv) :
  ShapeEnv_wf env -> ShapeEnv_wf (create_unbacked_symint env).2.
Proof.
  intros Hwf n. simpl. rewrite lookup_insert. case_decide as Hn.
  - intros _. lia.
  - intros H. specialize (Hwf n H). lia.
Qed.

(** C7: [new_data_dependent_symint] raises DynamicOutputShapeException for
    the operator when the context has no shape environment or one that
    disallows dynamic output shapes; otherwise it returns the size the
    environment's allocator hands out, one the environment did not know
    before and whose range starts at a floor of at least 2. *)
Theorem new_data_dependent_symint_behaviour (self : FakeTensorImplCtx) :
  ((_shape_env self = None
    \/ exists env, _shape_env self = Some env
                   /\ allow_dynamic_output_shape_ops env = false) ->
   new_data_dependent_symint self
   = (Raise (DynamicOutputShapeException (_op self)), self))
  /\ (forall env,
        _shape_env self = Some env ->
        allow_dynamic_output_shape_ops env = true ->
        ShapeEnv_wf env ->
        exists s env',
          new_data_dependent_symint self
          = (Ok s, {| _shape_env := Some env'; _op := _op self |})
          /\ (s, env') = create_unbacked_symint env
          /\ var_to_range env !! symbol s = None
          /\ (exists lo hi, var_to_range env' !! symbol s = Some (lo, hi)
                            /\ (2 <= lo)%Z)
          /\ ShapeEnv_wf env').
Proof.
  split.
  - unfold new_data_dependent_symint.
    intros [-> | (env & -> & ->)]; reflexivity.
  - intros env Henv Hallow Hwf. unfold new_data_dependent_symint.
    rewrite Henv, Hallow. simpl.
    eexists _, _. split; [reflexivity |]. split; [reflexivity |].
    split; [exact (create_unbacked_symint_fresh env Hwf) |].
    split; [| exact (create_unbacked_symint_wf env Hwf)].
    exists 2%Z, None. simpl. split; [apply lookup_insert_eq | lia].
Qed.

(** ** Runs on the concrete host *)

Import Sample.

Example custom_op_numpy_sin :
  custom_op "(Tensor x) -> Tensor" "mylib" (PFunction numpy_sin) initial_world
  = (Ok 0, registered).
Proof. vm_compute. reflexivity. Qed.

Example registered_heap : heap registered = [sin_op].
Proof. reflexivity. Qed.

Example registered_kernels :
  kernels (dispatcher registered)
  = [("mylib::numpy_sin", "Autograd", CAutogradNotImplemented 0)].
Proof. reflexivity. Qed.

Example reserved_namespace_rejected :
  exists msg,
    custom_op "(Tensor x) -> Tensor" "torch" (PFunction numpy_sin) initial_world
    = (Raise (ValueError msg), initial_world).
Proof. eexists. vm_compute. reflexivity. Qed.

Lemma rejected_schema_fails_before_dispatcher_witness :
  rejected_schema view_schema
  /\ exists msg,
       validate_schema view_schema = Raise (ValueError msg)
       /\ custom_op "(Tensor(a) x) -> Tensor(a)" "mylib" (PFunction alias) initial_world
          = (Raise (ValueError msg), initial_world).
Proof.
  assert (Hbad : rejected_schema view_schema).
  { right; left. exists view_return, {| alias_set := ["a"]; is_write := false |}.
    split; [apply list_elem_of_here | split; reflexivity]. }
  split; [exact Hbad |].
  destruct (rejected_schema_fails_before_dispatcher
              "(Tensor(a) x) -> Tensor(a)" "mylib" (PFunction alias) view_schema
              initial_world Hbad) as (msg & Hv & _ & Hc).
  - intros fn [= <-]. reflexivity.
  - exists msg. split; [exact Hv | exact (Hc eq_refl eq_refl)].
Defined.

Lemma signature_mismatch_rejected_witness :
  parse "numpy_take(Tensor x, *, int dim) -> Tensor" = Ok take_schema
  /\ validate_schema take_schema = Ok tt
  /\ compared_kwonly_names take_schema <> kwonlyargs numpy_take_wrong
  /\ exists msg,
       custom_op "(Tensor x, *, int dim) -> Tensor" "mylib"
         (PFunction numpy_take_wrong) initial_world
       = (Raise (ValueError msg), initial_world).
Proof.
  assert (Hne : compared_kwonly_names take_schema <> kwonlyargs numpy_take_wrong)
    by discriminate.
  assert (Hparse : parse (__name__ numpy_take_wrong
                          +:+ "(Tensor x, *, int dim) -> Tensor") = Ok take_schema)
    by reflexivity.
  assert (Hvalid : validate_schema take_schema = Ok tt) by reflexivity.
  split; [reflexivity |]. split; [reflexivity |]. split; [exact Hne |].
  destruct (proj2 (signature_mismatch_rejected
              "(Tensor x, *, int dim) -> Tensor" "mylib" numpy_take_wrong
              take_schema initial_world Hparse Hvalid) (or_intror Hne))
    as (msg & _ & _ & Hc).
  exists msg. exact (Hc eq_refl).
Defined.

Lemma non_function_rejected_first_witness :
  exists msg,
    custom_op "not a schema" "torch" (PObject "int") initial_world
    = (Raise (ValueError msg), initial_world)
    /\ contains "<class 'int'>" msg.
Proof.
  eexists.
  exact (non_function_rejected_first "not a schema" "torch" (PObject "int")
           initial_world eq_refl).
Defined.

Lemma impl_fake_registers_once_witness :
  exists w1 msg,
    impl_fake_inner 0 returns_none frame1 registered = (Ok returns_none, w1)
    /\ impl_fake_inner 0 asks_ctx frame2 w1 = (Raise (RuntimeError msg), w1)
    /\ contains "ops.py:12" msg.
Proof.
  destruct (impl_fake_registers_once 0 sin_op returns_none frame1 registered
              eq_refl eq_refl) as (w1 & op1 & Hfirst & Hop1 & Hfake & Hagain).
  destruct (Hagain asks_ctx frame2 w1 op1 Hop1 eq_refl)
    as (msg & Hsecond & _ & _ & Hloc).
  exists w1, msg. split; [exact Hfirst |]. split; [exact Hsecond | exact Hloc].
Defined.

(** C4 fails as stated: outside any fake call [get_ctx()] returns [None] and
    raises nothing. *)
Lemma get_ctx_outside_fake_call_does_not_fail :
  get_ctx initial_world = (Ok VNone, initial_world)
  /\ ~ (exists e, fst (get_ctx initial_world) = Raise e).
Proof. split; [reflexivity |]. intros [e He]. discriminate He. Qed.

Lemma get_ctx_follows_the_getter_witness :
  get_ctx initial_world = (Ok VNone, initial_world)
  /\ (exists msg,
        f_with_ctx asks_ctx "mylib::numpy_sin" "ops.py:12" [x_plain] [] initial_world
        = (Raise (RuntimeError msg), initial_world)
        /\ contains "mylib::numpy_sin" msg /\ contains "ops.py:12" msg)
  /\ (forall c,
        set_ctx_getter (const_getter (VCtx c)) get_ctx initial_world
        = (Ok (VCtx c), initial_world))
  /\ (forall w2 c,
        (exists w2', get_ctx w2 = (Ok (VCtx c), w2'))
        <-> global_ctx_getter w2 = const_getter (VCtx c)).
Proof.
  exact (get_ctx_follows_the_getter asks_ctx "mylib::numpy_sin" "ops.py:12"
           [x_plain] [] initial_world eq_refl eq_refl).
Defined.

Lemma f_with_ctx_restores_ctx_getter_witness :
  global_ctx_getter
    (snd (f_with_ctx asks_ctx "mylib::numpy_sin" "ops.py:12" [x_plain] []
            (set_global_ctx_getter (const_getter VNone) registered)))
  = const_getter VNone.
Proof.
  exact (proj2 (proj2 (f_with_ctx_restores_ctx_getter asks_ctx "mylib::numpy_sin"
           "ops.py:12" [x_plain] []
           (set_global_ctx_getter (const_getter VNone) registered)))).
Defined.


Lemma new_data_dependent_symint_behaviour_witness :
  let env := {| allow_dynamic_output_shape_ops := true;
                unbacked_symint_counter := 0; var_to_range := ∅ |} in
  new_data_dependent_symint {| _shape_env := None; _op := "mylib::numpy_sin" |}
  = (Raise (DynamicOutputShapeException "mylib::numpy_sin"),
     {| _shape_env := None; _op := "mylib::numpy_sin" |})
  /\ exists s ctx',
       new_data_dependent_symint {| _shape_env := Some env; _op := "mylib::numpy_sin" |}
       = (Ok s, ctx').
Proof.
  intros env. split.
  - apply (proj1 (new_data_dependent_symint_behaviour
                    {| _shape_env := None; _op := "mylib::numpy_sin" |})).
    left. reflexivity.
  - destruct (proj2 (new_data_dependent_symint_behaviour
                       {| _shape_env := Some env; _op := "mylib::numpy_sin" |})
                env eq_refl eq_refl) as (s & env' & H & _).
    + intros n [x Hx]. simpl in Hx. by rewrite lookup_empty in Hx.
    + eauto.
Defined.

Lemma CustomOp_private_and_registered_witness :
  exists op,
    heap registered !! 0 = Some op
    /\ global_registry registered !! _qualname op = Some 0.
Proof.
  exact (proj2 (proj2 (CustomOp_private_and_registered
           {| lib_ns := "mylib"; lib_kind := "FRAGMENT" |} "mylib"
           (op_named "numpy_sin") ("mylib::numpy_sin", EmptyString) initial_world))
         "(Tensor x) -> Tensor" (PFunction numpy_sin) 0 registered
         custom_op_numpy_sin).
Defined.

(** ** Further properties: names and namespaces *)

Lemma strip_prefix_app (p r : string) : strip_prefix p (p +:+ r) = Some r.
Proof.
  induction p as [| a p IH]; [now destruct r |].
  rewrite append_cons. simpl. now rewrite Ascii.eqb_refl.
Qed.

Lemma strip_prefix_Some (p s r : string) : strip_prefix p s = Some r -> s = p +:+ r.
Proof.
  revert s. induction p as [| a p IH]; intros s H.
  - destruct s; simpl in H; now inversion H.
  - destruct s as [| b s]; simpl in H; [discriminate |].
    destruct (Ascii.eqb a b) eqn:Hab; [| discriminate].
    apply Ascii.eqb_eq in Hab as ->. rewrite append_cons. f_equal. now apply IH.
Qed.

Lemma split_once_cases (sep s : string) :
  split_once sep s = [s] \/ exists a b, split_once sep s = [a; b].
Proof.
  induction s as [| c s IH]; simpl.
  - destruct sep; simpl; eauto.
  - destruct (strip_prefix sep (String c s)); [eauto |].
    destruct IH as [-> | (a & b & ->)]; eauto.
Qed.

Lemma split_once_join (sep s a b : string) :
  split_once sep s = [a; b] -> s = a +:+ sep +:+ b.
Proof.
  revert a b. induction s as [| c s IH]; intros a b H.
  - simpl in H. destruct (strip_prefix sep EmptyString) eqn:Hp; [| discriminate].
    injection H as <- <-. now apply strip_prefix_Some in Hp.
  - simpl in H. destruct (strip_prefix sep (String c s)) eqn:Hp.
    + injection H as <- <-. now apply strip_prefix_Some in Hp.
    + destruct (split_once_cases sep s) as [Hs | (a' & b' & Hs)];
        rewrite Hs in H.
      * destruct s; discriminate.
      * injection H as <- <-. rewrite append_cons. f_equal. now apply IH.
Qed.

Lemma split_once_found (sep pre post : string) :
  exists a b, split_once sep (pre +:+ sep +:+ post) = [a; b].
Proof.
  induction pre as [| c pre IH].
  - change (EmptyString +:+ sep +:+ post) with (sep +:+ post).
    destruct (sep +:+ post) eqn:E; simpl; rewrite <- ?E, strip_prefix_app; eauto.
  - rewrite append_cons. simpl.
    destruct (strip_prefix sep (String c (pre +:+ sep +:+ post))); [eauto |].
    destruct IH as (a & b & ->). eauto.
Qed.

Lemma split_once_no_colon (ns rest : string) :
  has_char ":" ns = false ->
  split_once "::" (ns +:+ "::" +:+ rest) = [ns; rest].
Proof.
  induction ns as [| c ns IH]; intros H; [reflexivity |].
  cbn [has_char] in H. destruct (Ascii.eqb ":" c) eqn:Hc; [discriminate |].
  rewrite append_cons.
  change (split_once "::" (String c (ns +:+ "::" +:+ rest)))
    with (match strip_prefix "::" (String c (ns +:+ "::" +:+ rest)) with
          | Some r => [EmptyString; r]
          | None => match split_once "::" (ns +:+ "::" +:+ rest) with
                    | [a; b] => [String c a; b]
                    | _ => [String c (ns +:+ "::" +:+ rest)]
                    end
          end).
  cbn [strip_prefix]. rewrite Hc. now rewrite IH.
Qed.

Lemma has_char_contains (c : Ascii.ascii) (s : string) :
  has_char c s = true <-> contains (String c EmptyString) s.
Proof.
  split.
  - induction s as [| c' s IH]; simpl; [discriminate |].
    destruct (Ascii.eqb c c') eqn:Hc.
    + intros _. apply Ascii.eqb_eq in Hc as <-. exists EmptyString, s. reflexivity.
    + intros (pre & post & ->)%IH. exists (String c' pre), post. reflexivity.
  - intros (pre & post & ->). induction pre as [| c' pre IH].
    + simpl. now rewrite Ascii.eqb_refl.
    + rewrite append_cons. simpl. destruct (Ascii.eqb c c'); [reflexivity | exact IH].
Qed.

(** X1: a qualified name built from a namespace without colons parses back
    into that namespace and the rest, whatever the rest contains. *)
Theorem parse_namespace_of_qualified (ns rest : string) :
  has_char ":" ns = false ->
  parse_namespace (ns +:+ "::" +:+ rest) = Ok (ns, rest).
Proof.
  intros H. unfold parse_namespace. now rewrite split_once_no_colon.
Qed.

(** X2: what [parse_namespace] returns joins back, with [::] between the two
    parts, into the text it was given. *)
Theorem parse_namespace_joins_back (s ns rest : string) :
  parse_namespace s = Ok (ns, rest) -> s = ns +:+ "::" +:+ rest.
Proof.
  unfold parse_namespace. intros H.
  destruct (split_once_cases "::" s) as [Hs | (a & b & Hs)]; rewrite Hs in H.
  - discriminate.
  - injection H as <- <-. now apply split_once_join.
Qed.

(** X3: [parse_namespace] raises, and then a ValueError quoting its argument,
    exactly when the argument has no [::] in it. *)
Theorem parse_namespace_fails_iff (s : string) :
  ((exists e, parse_namespace s = Raise e) <-> ~ contains "::" s)
  /\ forall e, parse_namespace s = Raise e ->
       e = ValueError ("Expected there to be a namespace in " +:+ s +:+ ".").
Proof.
  unfold parse_namespace. split; [split |].
  - intros [e He] (pre & post & ->).
    destruct (split_once_found "::" pre post) as (a & b & Hs).
    rewrite Hs in He. discriminate.
  - intros Hno.
    destruct (split_once_cases "::" s) as [Hs | (a & b & Hs)]; rewrite Hs.
    + eauto.
    + exfalso. apply Hno. exists a, b. now apply split_once_join.
  - destruct (split_once "::" s) as [| a [| b [| c l]]]; intros e [= <-]; reflexivity.
Qed.

(** X4: [validate_namespace] accepts exactly the namespaces that contain no
    dot and are none of the reserved names. *)
Theorem validate_namespace_ok_iff (ns : string) :
  validate_namespace ns = Ok tt <-> ~ contains "." ns /\ ns ∉ RESERVED_NS.
Proof.
  unfold validate_namespace.
  destruct (has_char "." ns) eqn:Hdot.
  - split; [discriminate |]. intros [H _]. exfalso. apply H.
    now apply has_char_contains.
  - case_bool_decide as Hres.
    + split; [discriminate |]. intros [_ H]. contradiction.
    + split; [| reflexivity]. intros _. split; [| exact Hres].
      intros H%has_char_contains. congruence.
Qed.

Section MoreProperties.
Context `{TG : Torchgen} `{HS : Host}.

(** X5: for a function, a namespace that contains a dot or is reserved makes
    the decorator raise a ValueError quoting the namespace, whatever the
    schema string is (it is not parsed), and leaves the process state as it
    was. *)
Theorem bad_namespace_rejected_before_parsing
    (schema ns : string) (fn : PyFunction) (w : World) :
  contains "." ns \/ ns ∈ RESERVED_NS ->
  exists msg,
    custom_op schema ns (PFunction fn) w = (Raise (ValueError msg), w)
    /\ contains ns msg.
Proof.
  intros Hbad. unfold custom_op, custom_op_inner, bind, lift, validate_namespace.
  destruct (has_char "." ns) eqn:Hdot.
  - eexists. split; [reflexivity |].
    do 2 apply contains_app_r. apply contains_prefix.
  - destruct Hbad as [H%has_char_contains | H]; [congruence |].
    rewrite bool_decide_eq_true_2 by exact H.
    eexists. split; [reflexivity |].
    apply contains_app_r, contains_prefix.
Qed.

(** X6: [validate_schema] returns without raising exactly for the schemas
    that are functional, return no view, take a tensor, return something and
    declare no [self]. *)
Theorem validate_schema_ok_iff (fs : FunctionSchema) :
  validate_schema fs = Ok tt <-> ~ rejected_schema fs.
Proof.
  split.
  - intros Hok Hbad. apply validate_schema_rejects in Hbad as [msg Hmsg].
    congruence.
  - apply validate_schema_accepts.
Qed.

End MoreProperties.

(** ** Further properties: device implementations *)

Lemma dict_get_supported (d : string) :
  (d ∈ ["cpu"; "cuda"] -> is_Some (dict_get SUPPORTED_DEVICE_TYPE_TO_KEY d))
  /\ (d ∉ ["cpu"; "cuda"] -> dict_get SUPPORTED_DEVICE_TYPE_TO_KEY d = None).
Proof.
  unfold SUPPORTED_DEVICE_TYPE_TO_KEY. cbn [dict_get].
  destruct (String.eqb "cpu" d) eqn:H1; [apply String.eqb_eq in H1 as <- |].
  { split; [eauto |]. intros H. exfalso. apply H. apply list_elem_of_here. }
  destruct (String.eqb "cuda" d) eqn:H2; [apply String.eqb_eq in H2 as <- |].
  { split; [eauto |]. intros H. exfalso. apply H.
    apply list_elem_of_further, list_elem_of_here. }
  apply String.eqb_neq in H1, H2. split; [| reflexivity].
  intros H. repeat (apply elem_of_cons in H as [-> | H]; [congruence |]).
  by apply elem_of_nil in H.
Qed.

Lemma validate_device_type_cases (d : string) :
  (d ∈ ["cpu"; "cuda"] /\ validate_device_type d = Ok tt)
  \/ ((d ∉ ["cpu"; "cuda"])
      /\ (exists msg, validate_device_type d = Raise (ValueError msg)
                      /\ contains d msg)).
Proof.
  destruct (decide (d ∈ ["cpu"; "cuda"])) as [Hin | Hout].
  - left. split; [exact Hin |].
    destruct (proj1 (dict_get_supported d) Hin) as [k Hk].
    unfold validate_device_type. now rewrite Hk.
  - right. split; [exact Hout |].
    unfold validate_device_type. rewrite (proj2 (dict_get_supported d) Hout).
    eexists. split; [reflexivity |].
    apply contains_app_r, contains_prefix.
Qed.

Lemma for_each_validate_device_type (l : list string) :
  (Forall (fun d => d ∈ ["cpu"; "cuda"]) l
   /\ for_each validate_device_type l = Ok tt)
  \/ (exists d msg, (d ∈ l) /\ (d ∉ ["cpu"; "cuda"])
        /\ for_each validate_device_type l = Raise (ValueError msg)
        /\ contains d msg).
Proof.
  induction l as [| d l IH]; [left; split; [constructor | reflexivity] |].
  cbn [for_each].
  destruct (validate_device_type_cases d) as [[Hin ->] | (Hout & msg & -> & Hc)].
  - destruct IH as [[Hall ->] | (d' & msg & Hd' & Hout & -> & Hc)].
    + left. split; [by constructor | reflexivity].
    + right. exists d', msg. split; [by apply list_elem_of_further | auto].
  - right. exists d, msg. split; [apply list_elem_of_here | auto].
Qed.

Lemma add_kernels_nil (w : World) : add_kernels [] w = w.
Proof.
  unfold add_kernels, set_dispatcher. rewrite app_nil_r.
  destruct w as [[fr sc ke] h r g a]. reflexivity.
Qed.

Lemma add_kernels_app (es1 es2 : list (string * string * Callable)) (w : World) :
  add_kernels es2 (add_kernels es1 w) = add_kernels (es1 ++ es2) w.
Proof. unfold add_kernels, set_dispatcher. simpl. now rewrite app_assoc. Qed.

Lemma register_devices_ok
    (self : nat) (op : CustomOp) (f : PyFunction) (ds : list string) (w : World) :
  heap w !! self = Some op ->
  Forall (fun d => d ∈ ["cpu"; "cuda"]) ds ->
  register_devices self f ds w
  = (Ok tt, add_kernels (device_kernel op f <$> ds) w).
Proof.
  revert w. induction ds as [| d ds IH]; intros w Hop Hall.
  - simpl. now rewrite add_kernels_nil.
  - apply Forall_cons in Hall as [Hd Hall].
    destruct (proj1 (dict_get_supported d) Hd) as [k Hk].
    cbn [register_devices]. unfold bind at 1. rewrite Hk. unfold ret at 1.
    unfold bind at 1. rewrite (deref_Some self op w Hop).
    unfold bind at 1, library_impl, bind, Library_impl, modify, ret.
    rewrite IH; [| exact Hop | exact Hall].
    f_equal. rewrite fmap_cons.
    change (device_kernel op f d :: (device_kernel op f <$> ds))
      with ([device_kernel op f d] ++ (device_kernel op f <$> ds))%list.
    rewrite <- add_kernels_app. f_equal.
    unfold add_kernels, device_kernel. now rewrite Hk.
Qed.

(** X7: if any of the device types handed to [impl] is neither [cpu] nor
    [cuda], [impl] raises a ValueError quoting an unsupported one, and
    applying the decorator registers nothing, not even for the supported
    device types in the list. *)
Theorem impl_rejects_unsupported_device
    (self : nat) (device_types : DeviceTypes) (f : PyFunction) (w : World)
    (d : string) :
  d ∈ device_list device_types ->
  d ∉ ["cpu"; "cuda"] ->
  exists d' msg,
    d' ∈ device_list device_types
    /\ (d' ∉ ["cpu"; "cuda"])
    /\ CustomOp_impl device_types = Raise (ValueError msg)
    /\ contains d' msg
    /\ CustomOp_impl_apply self device_types f w = (Raise (ValueError msg), w).
Proof.
  intros Hin Hout.
  destruct (for_each_validate_device_type (device_list device_types))
    as [[Hall _] | (d' & msg & Hd' & Hout' & Hfor & Hc)].
  - exfalso. apply Hout. rewrite Forall_forall in Hall. now apply Hall.
  - exists d', msg. split; [exact Hd' |]. split; [exact Hout' |].
    assert (Himpl : CustomOp_impl device_types = Raise (ValueError msg)).
    { unfold CustomOp_impl. fold (device_list device_types). now rewrite Hfor. }
    split; [exact Himpl |]. split; [exact Hc |].
    unfold CustomOp_impl_apply, bind, lift. now rewrite Himpl.
Qed.

(** X8: whenever applying the decorator of [impl] returns, it returns the
    function it was given, every device type handed to [impl] was [cpu] or
    [cuda], and the kernel table has grown by exactly one entry per distinct
    device type, under the operator's name and that device's dispatch key;
    duplicates in the list add nothing, and the objects, the schemas and the
    registry are untouched. *)
Theorem impl_registers_each_device_once
    (self : nat) (op : CustomOp) (device_types : DeviceTypes) (f r : PyFunction)
    (w w' : World) :
  heap w !! self = Some op ->
  CustomOp_impl_apply self device_types f w = (Ok r, w') ->
  r = f
  /\ Forall (fun d => d ∈ ["cpu"; "cuda"]) (device_list device_types)
  /\ exists added,
       kernels (dispatcher w') = (kernels (dispatcher w) ++ added)%list
       /\ NoDup added
       /\ (forall e, e ∈ added
             <-> exists d, d ∈ device_list device_types /\ e = device_kernel op f d)
       /\ schemas (dispatcher w') = schemas (dispatcher w)
       /\ heap w' = heap w
       /\ global_registry w' = global_registry w.
Proof.
  intros Hop Hrun.
  assert (Hcases : CustomOp_impl device_types = Ok (device_list device_types)
                   /\ Forall (fun d => d ∈ ["cpu"; "cuda"]) (device_list device_types)).
  { unfold CustomOp_impl_apply, bind, lift in Hrun. unfold CustomOp_impl in *.
    fold (device_list device_types) in *.
    destruct (for_each_validate_device_type (device_list device_types))
      as [[Hall Hfor] | (d' & msg & _ & _ & Hfor & _)]; rewrite Hfor in *.
    - split; [reflexivity | exact Hall].
    - discriminate. }
  destruct Hcases as [Himpl Hall].
  assert (Hall' : Forall (fun d => d ∈ ["cpu"; "cuda"])
                    (remove_dups (device_list device_types))).
  { rewrite Forall_forall in *. intros d Hd. apply Hall.
    now apply elem_of_remove_dups. }
  unfold CustomOp_impl_apply, bind, lift in Hrun. rewrite Himpl in Hrun.
  unfold CustomOp_impl_inner, bind in Hrun.
  rewrite (register_devices_ok self op f _ w Hop Hall') in Hrun.
  injection Hrun as <- <-.
  split; [reflexivity |]. split; [exact Hall |].
  exists (device_kernel op f <$> remove_dups (device_list device_types)).
  split; [reflexivity |].
  split.
  { apply NoDup_fmap_2_strong; [| apply NoDup_remove_dups].
    intros x y Hx Hy Hxy. rewrite Forall_forall in Hall'.
    specialize (Hall' x Hx) as Hx'. specialize (Hall' y Hy) as Hy'.
    unfold device_kernel in Hxy. injection Hxy as Hk.
    repeat (apply elem_of_cons in Hx' as [-> | Hx']);
      repeat (apply elem_of_cons in Hy' as [-> | Hy']);
      try reflexivity; try discriminate;
      try (by apply elem_of_nil in Hx'); by apply elem_of_nil in Hy'. }
  split.
  { intros e. rewrite list_elem_of_fmap. split.
    - intros (d & -> & Hd). exists d. split; [| reflexivity].
      now apply elem_of_remove_dups.
    - intros (d & Hd & ->). exists d. split; [reflexivity |].
      now apply elem_of_remove_dups. }
  repeat split; reflexivity.
Qed.

(** ** Further properties: objects, registry and fake implementations *)

Lemma set_global_ctx_getter_twice (g1 g2 : CtxGetter) (w : World) :
  set_global_ctx_getter g1 (set_global_ctx_getter g2 w) = set_global_ctx_getter g1 w.
Proof. reflexivity. Qed.

Section ObjectProperties.
Context `{TG : Torchgen} `{HS : Host}.

Lemma CustomOp_init_ok (lib : Library) (cpp_ns : string)
    (operator_name : OperatorName) (ophandle : OpHandle) (w : World) :
  let key := cpp_ns +:+ "::" +:+ str_BaseOperatorName (opn_name operator_name) in
  let op := {| _lib := lib; _ophandle := ophandle;
               _opname := str_OperatorName operator_name; _qualname := key;
               self__name__ := None; self__module__ := None; self__doc__ := None;
               _fake_impl := None |} in
  CustomOp_init lib cpp_ns operator_name ophandle true w
  = (Ok (length (heap w)),
     set_global_registry (<[key := length (heap w)]> (global_registry w))
       (set_heap (heap w ++ [op]) w)).
Proof.
  intros key op.
  unfold CustomOp_init, bind, gets, modify, deref, bind, gets, ret.
  cbn [negb heap set_heap]. rewrite lookup_last. reflexivity.
Qed.

(** X9: the registry is keyed by namespace and base name only.  Constructing
    a second CustomOp whose operator name has the same base name, whatever
    its overload, raises nothing and takes over the registry entry; the first
    object stays alive and unchanged but is no longer the registered one, and
    entries under other names are as they were. *)
Theorem CustomOp_init_replaces_same_name
    (lib1 lib2 : Library) (cpp_ns : string) (n1 n2 : OperatorName)
    (h1 h2 : OpHandle) (w : World) :
  opn_name n1 = opn_name n2 ->
  let key := cpp_ns +:+ "::" +:+ str_BaseOperatorName (opn_name n1) in
  exists a b w1 w2 opa,
    CustomOp_init lib1 cpp_ns n1 h1 true w = (Ok a, w1)
    /\ CustomOp_init lib2 cpp_ns n2 h2 true w1 = (Ok b, w2)
    /\ a <> b
    /\ heap w1 !! a = Some opa /\ heap w2 !! a = Some opa
    /\ _qualname opa = key
    /\ global_registry w1 !! key = Some a
    /\ global_registry w2 !! key = Some b
    /\ forall q, q <> key -> global_registry w2 !! q = global_registry w !! q.
Proof.
  intros Hname key.
  eexists _, _, _, _, _.
  split; [apply CustomOp_init_ok |].
  split; [apply CustomOp_init_ok |].
  cbn [heap set_heap set_global_registry global_registry].
  rewrite length_app. cbn [length].
  split; [lia |].
  split; [apply lookup_last |].
  split; [rewrite lookup_app_l by (rewrite length_app; simpl; lia);
          apply lookup_last |].
  split; [reflexivity |].
  split; [apply lookup_insert_eq |].
  split; [rewrite <- Hname; apply lookup_insert_eq |].
  intros q Hq. rewrite <- Hname.
  rewrite !lookup_insert_ne by (fold key; congruence). reflexivity.
Qed.

Lemma impl_fake_inner_first
    (self : nat) (op : CustomOp) (f : PyFunction) (frame : FrameInfo) (w : World) :
  heap w !! self = Some op ->
  _fake_impl op = None ->
  let loc := filename frame +:+ ":" +:+ pretty (lineno frame) in
  impl_fake_inner self f frame w
  = (Ok f,
     add_kernels [(lib_ns (_lib op) +:+ "::" +:+ _opname op, "Meta",
                   CFWithCtx f (_qualname op) loc)]
       (set_heap (<[self := with_fake_impl {| func := f; location := loc |} op]>
                    (heap w)) w)).
Proof.
  intros Hop Hnone loc.
  assert (Hlt : self < length (heap w)) by (eapply lookup_lt_Some; eauto).
  unfold impl_fake_inner, bind.
  rewrite (deref_Some _ _ _ Hop), Hnone.
  unfold update, bind, modify. rewrite (deref_Some _ _ _ Hop).
  match goal with
  | |- context [deref self ?w'] =>
      rewrite (deref_Some self (with_fake_impl {| func := f; location := loc |} op) w')
        by (simpl; now apply list_lookup_insert_eq)
  end.
  reflexivity.
Qed.

(** X10: a first [impl_fake] registration changes the [_fake_impl] attribute
    of its own CustomOp and nothing else on it, leaves every other CustomOp,
    the registry and the context getter as they were, and adds exactly one
    kernel: the wrapper of [f], under the operator's name and the Meta key. *)
Theorem impl_fake_touches_only_its_operator
    (self : nat) (op : CustomOp) (f : PyFunction) (frame : FrameInfo) (w : World) :
  heap w !! self = Some op ->
  _fake_impl op = None ->
  exists w1 op1 fl,
    impl_fake_inner self f frame w = (Ok f, w1)
    /\ heap w1 !! self = Some op1
    /\ op1 = with_fake_impl fl op /\ func fl = f
    /\ (forall other, other <> self -> heap w1 !! other = heap w !! other)
    /\ length (heap w1) = length (heap w)
    /\ global_registry w1 = global_registry w
    /\ global_ctx_getter w1 = global_ctx_getter w
    /\ kernels (dispatcher w1)
       = (kernels (dispatcher w)
          ++ [(lib_ns (_lib op) +:+ "::" +:+ _opname op, "Meta",
               CFWithCtx f (_qualname op) (location fl))])%list.
Proof.
  intros Hop Hnone.
  assert (Hlt : self < length (heap w)) by (eapply lookup_lt_Some; eauto).
  eexists _, _, _.
  split; [exact (impl_fake_inner_first self op f frame w Hop Hnone) |].
  cbn [heap set_heap add_kernels set_dispatcher global_registry
       global_ctx_getter dispatcher kernels].
  split; [now apply list_lookup_insert_eq |].
  split; [reflexivity |]. split; [reflexivity |].
  split; [intros other Hne; now apply list_lookup_insert_ne |].
  split; [apply length_insert |].
  repeat split; reflexivity.
Qed.

(** X11: the Meta kernel that [impl_fake] installs runs [f] under
    [error_on_ctx]: if [f] asks for the context, the call raises a
    RuntimeError that quotes the operator's qualified name and the very
    location recorded in [_fake_impl], and leaves the state it ran in. *)
Theorem impl_fake_meta_kernel_points_at_registration
    (self : nat) (op : CustomOp) (f : PyFunction) (frame : FrameInfo) (w : World)
    (args : list PyVal) (kwargs : list (string * PyVal)) :
  heap w !! self = Some op ->
  _fake_impl op = None ->
  call_function f args kwargs = get_ctx ->
  exists w1 op1 fl k,
    impl_fake_inner self f frame w = (Ok f, w1)
    /\ heap w1 !! self = Some op1 /\ _fake_impl op1 = Some fl
    /\ last (kernels (dispatcher w1))
       = Some (lib_ns (_lib op) +:+ "::" +:+ _opname op, "Meta", k)
    /\ forall w2, exists msg,
         call_callable k args kwargs w2 = (Raise (RuntimeError msg), w2)
         /\ contains (_qualname op1) msg
         /\ contains (location fl) msg.
Proof.
  intros Hop Hnone Hbody.
  assert (Hlt : self < length (heap w)) by (eapply lookup_lt_Some; eauto).
  eexists _, _, _, _.
  split; [exact (impl_fake_inner_first self op f frame w Hop Hnone) |].
  cbn [heap set_heap add_kernels set_dispatcher dispatcher kernels].
  split; [now apply list_lookup_insert_eq |].
  split; [reflexivity |].
  split; [apply last_snoc |].
  intros w2. cbn [call_callable with_fake_impl _qualname location].
  unfold f_with_ctx. rewrite set_ctx_getter_unfold, Hbody.
  rewrite get_ctx_unfold, global_ctx_getter_set.
  destruct (error_on_ctx_message (_qualname op)
              (filename frame +:+ ":" +:+ pretty (lineno frame))
              (set_global_ctx_getter
                 (error_on_ctx (_qualname op)
                    (filename frame +:+ ":" +:+ pretty (lineno frame))) w2))
    as (msg & Hmsg & Hq & Hl).
  exists msg. rewrite Hmsg. cbn [fst snd].
  rewrite set_global_ctx_getter_back. auto.
Qed.

(** X12: [set_ctx_getter] nests like a stack.  Code that runs in an inner
    [with] block sees the inner getter; once that block is left normally,
    whatever its body did to the global, the getter of the enclosing block is
    current again; and after the enclosing block the getter from before it
    is. *)
Theorem set_ctx_getter_nests
    {A} (g1 g2 : CtxGetter) (body : M A) (a : A) (w w' : World) :
  body (set_global_ctx_getter g2 w) = (Ok a, w') ->
  global_ctx_getter (set_global_ctx_getter g2 w) = g2
  /\ set_ctx_getter g1
       (let* x := set_ctx_getter g2 body in
        let* g := gets global_ctx_getter in
        ret (x, g)) w
     = (Ok (a, g1), set_global_ctx_getter (global_ctx_getter w) w').
Proof.
  intros Hbody. split; [reflexivity |].
  rewrite set_ctx_getter_unfold.
  unfold bind at 1 3. rewrite set_ctx_getter_unfold.
  rewrite set_global_ctx_getter_twice, Hbody.
  cbn [fst snd]. unfold bind, gets, ret. cbn [fst snd global_ctx_getter set_global_ctx_getter].
  reflexivity.
Qed.

End ObjectProperties.

Section DecoratorProperties.
Context `{TG : Torchgen} `{HS : Host}.

Lemma custom_op_ok_full (schema ns : string) (func : PyObj) (w w' : World) (l : nat) :
  custom_op schema ns func w = (Ok l, w') ->
  exists fn fs,
    func = PFunction fn
    /\ validate_namespace ns = Ok tt
    /\ parse (__name__ fn +:+ schema) = Ok fs
    /\ validate_schema fs = Ok tt
    /\ validate_function_matches_schema fs fn = Ok tt
    /\ l = length (heap w)
    /\ heap w'
       = (heap w
          ++ [{| _lib := {| lib_ns := ns; lib_kind := "FRAGMENT" |};
                 _ophandle :=
                   (ns +:+ "::" +:+ str_BaseOperatorName (opn_name (name fs)),
                    default EmptyString (overload_name (name fs)));
                 _opname := str_OperatorName (name fs);
                 _qualname := ns +:+ "::" +:+ str_BaseOperatorName (opn_name (name fs));
                 self__name__ := Some (__name__ fn);
                 self__module__ := Some (__module__ fn);
                 self__doc__ := __doc__ fn;
                 _fake_impl := None |}])%list.
Proof.
  unfold custom_op, custom_op_inner.
  destruct func as [fn | ty]; [| discriminate].
  unfold bind at 1. unfold lift at 1.
  destruct (validate_namespace ns) as [[] | e] eqn:Hns; [| discriminate].
  unfold bind at 1. unfold lift at 1.
  destruct (parse (__name__ fn +:+ schema)) as [fs | e] eqn:Hparse; [| discriminate].
  unfold bind at 1. unfold lift at 1.
  destruct (validate_schema fs) as [[] | e] eqn:Hvalid; [| discriminate].
  unfold bind at 1. unfold lift at 1.
  destruct (validate_function_matches_schema fs fn) as [[] | e] eqn:Hmatch;
    [| discriminate].
  unfold bind at 1. unfold Library_new, bind, modify, ret, Library_define, lift.
  cbn. rewrite Hparse. cbn.
  match goal with |- context [existsb ?p ?s] => destruct (existsb p s) end;
    [| discriminate].
  cbn. unfold bind, deref, gets, update, modify, ret. cbn.
  rewrite lookup_last. cbn.
  unfold bind, deref, gets, update, modify, ret. cbn.
  rewrite lookup_last. cbn.
  rewrite insert_last, lookup_last. cbn.
  intros [= <- <-].
  exists fn, fs. repeat (split; [first [reflexivity | assumption] |]).
  cbn. destruct (overload_name (name fs)); reflexivity.
Qed.

(** X13: the decorator returns a CustomOp only for a Python function, a
    namespace that [validate_namespace] accepts, a schema string that parses
    to a schema that is none of the rejected shapes, and a function whose
    names equal the two lists the check compares (the schema's positional
    parameters after [self] and its keyword-only parameters before the
    tensor-options group): it never hands back an operator that skipped a
    check. *)
Theorem custom_op_returns_only_validated
    (schema ns : string) (func : PyObj) (w w' : World) (l : nat) :
  custom_op schema ns func w = (Ok l, w') ->
  exists fn fs,
    func = PFunction fn
    /\ ~ contains "." ns /\ (ns ∉ RESERVED_NS)
    /\ parse (__name__ fn +:+ schema) = Ok fs
    /\ ~ rejected_schema fs
    /\ compared_names_match fs fn.
Proof.
  intros H. apply custom_op_ok_full in H
    as (fn & fs & -> & Hns & Hparse & Hvalid & Hmatch & _).
  exists fn, fs. split; [reflexivity |].
  apply validate_namespace_ok_iff in Hns as [Hdot Hres].
  split; [exact Hdot |]. split; [exact Hres |]. split; [exact Hparse |].
  split.
  - intros Hbad. apply validate_schema_rejects in Hbad as [msg Hmsg]. congruence.
  - destruct (validate_function_matches_schema_cases fs fn)
      as [[Hm _] | [_ [msg Hmsg]]]; [exact Hm | congruence].
Qed.

(** X14: the object the decorator returns is a new one: it carries the
    function's [__name__], [__module__] and [__doc__], has no fake
    implementation yet, holds a FRAGMENT library of the namespace, and every
    CustomOp that existed before is unchanged. *)
Theorem custom_op_result_attributes
    (schema ns : string) (func : PyObj) (w w' : World) (l : nat) :
  custom_op schema ns func w = (Ok l, w') ->
  exists fn op,
    func = PFunction fn
    /\ heap w !! l = None
    /\ heap w' !! l = Some op
    /\ self__name__ op = Some (__name__ fn)
    /\ self__module__ op = Some (__module__ fn)
    /\ self__doc__ op = __doc__ fn
    /\ _fake_impl op = None
    /\ _lib op = {| lib_ns := ns; lib_kind := "FRAGMENT" |}
    /\ length (heap w') = S (length (heap w))
    /\ forall i o, heap w !! i = Some o -> heap w' !! i = Some o.
Proof.
  intros H. apply custom_op_ok_full in H
    as (fn & fs & -> & _ & _ & _ & _ & -> & Hheap).
  eexists fn, _. split; [reflexivity |]. rewrite Hheap.
  split; [by apply lookup_ge_None_2 |].
  split; [apply lookup_last |].
  repeat (split; [reflexivity |]).
  split; [rewrite length_app; simpl; lia |].
  intros i o Hi. now apply lookup_app_l_Some.
Qed.

(** X15: for a namespace without a colon, the qualified name of the CustomOp
    that the decorator returns parses back, with [parse_namespace], into the
    namespace and the operator's base name. *)
Theorem custom_op_qualname_parses_back
    (schema ns : string) (func : PyObj) (w w' : World) (l : nat) :
  custom_op schema ns func w = (Ok l, w') ->
  has_char ":" ns = false ->
  exists fn fs op,
    func = PFunction fn
    /\ parse (__name__ fn +:+ schema) = Ok fs
    /\ heap w' !! l = Some op
    /\ parse_namespace (_qualname op)
       = Ok (ns, str_BaseOperatorName (opn_name (name fs))).
Proof.
  intros H Hcolon. apply custom_op_ok_full in H
    as (fn & fs & -> & _ & Hparse & _ & _ & -> & Hheap).
  eexists fn, fs, _. split; [reflexivity |]. split; [exact Hparse |].
  rewrite Hheap. split; [apply lookup_last |].
  cbn [_qualname]. unfold parse_namespace. now rewrite split_once_no_colon.
Qed.

End DecoratorProperties.

(** ** Further runs on the concrete host *)

Lemma parse_namespace_of_qualified_witness :
  parse_namespace ("mylib" +:+ "::" +:+ "numpy_sin.out") = Ok ("mylib", "numpy_sin.out").
Proof. exact (parse_namespace_of_qualified "mylib" "numpy_sin.out" eq_refl). Defined.

Lemma parse_namespace_joins_back_witness :
  parse_namespace "a::b::c" = Ok ("a", "b::c")
  /\ "a::b::c" = "a" +:+ "::" +:+ "b::c".
Proof.
  split; [reflexivity |].
  exact (parse_namespace_joins_back "a::b::c" "a" "b::c" eq_refl).
Defined.

Lemma parse_namespace_fails_iff_witness :
  parse_namespace "numpy_sin"
  = Raise (ValueError "Expected there to be a namespace in numpy_sin.")
  /\ ~ contains "::" "numpy_sin".
Proof.
  split; [reflexivity |].
  apply (proj1 (proj1 (parse_namespace_fails_iff "numpy_sin"))).
  eexists. reflexivity.
Defined.

Lemma validate_namespace_ok_iff_witness :
  ~ contains "." "mylib" /\ "mylib" ∉ RESERVED_NS.
Proof. exact (proj1 (validate_namespace_ok_iff "mylib") eq_refl). Defined.

Lemma bad_namespace_rejected_before_parsing_witness :
  exists msg,
    custom_op "no schema at all" "aten" (PFunction numpy_sin) registered
    = (Raise (ValueError msg), registered)
    /\ contains "aten" msg.
Proof.
  apply (bad_namespace_rejected_before_parsing "no schema at all" "aten"
           numpy_sin registered).
  right. unfold RESERVED_NS. set_solver.
Defined.

Lemma validate_schema_ok_iff_witness :
  validate_schema sin_schema = Ok tt /\ ~ rejected_schema sin_schema.
Proof.
  split; [reflexivity |].
  exact (proj1 (validate_schema_ok_iff sin_schema) eq_refl).
Defined.

Lemma impl_rejects_unsupported_device_witness :
  exists d' msg,
    (d' ∈ ["cpu"; "xla"]) /\ (d' ∉ ["cpu"; "cuda"])
    /\ contains d' msg
    /\ CustomOp_impl_apply 0 (ManyDevices ["cpu"; "xla"]) numpy_sin_impl registered
       = (Raise (ValueError msg), registered).
Proof.
  destruct (impl_rejects_unsupported_device 0 (ManyDevices ["cpu"; "xla"])
              numpy_sin_impl registered "xla")
    as (d' & msg & Hin & Hout & _ & Hc & Happ).
  - apply list_elem_of_further, list_elem_of_here.
  - intros H. repeat (apply elem_of_cons in H as [[=] | H]).
    by apply elem_of_nil in H.
  - exists d', msg. auto.
Defined.

Example impl_twice_cuda_once_cpu :
  exists w',
    CustomOp_impl_apply 0 (ManyDevices ["cuda"; "cpu"; "cuda"]) numpy_sin_impl registered
    = (Ok numpy_sin_impl, w').
Proof. eexists. vm_compute. reflexivity. Qed.

Lemma impl_registers_each_device_once_witness :
  exists w' added,
    CustomOp_impl_apply 0 (ManyDevices ["cuda"; "cpu"; "cuda"]) numpy_sin_impl registered
    = (Ok numpy_sin_impl, w')
    /\ kernels (dispatcher w') = (kernels (dispatcher registered) ++ added)%list
    /\ NoDup added.
Proof.
  destruct impl_twice_cuda_once_cpu as [w' Hrun].
  destruct (impl_registers_each_device_once 0 sin_op
              (ManyDevices ["cuda"; "cpu"; "cuda"]) numpy_sin_impl numpy_sin_impl
              registered w' eq_refl Hrun)
    as (_ & _ & added & Hk & Hnd & _).
  exists w', added. auto.
Defined.

Example impl_registers_two_kernels :
  kernels (dispatcher
    (snd (CustomOp_impl_apply 0 (ManyDevices ["cuda"; "cpu"; "cuda"])
            numpy_sin_impl registered)))
  = [("mylib::numpy_sin", "Autograd", CAutogradNotImplemented 0);
     ("mylib::numpy_sin", "CPU", CFunction numpy_sin_impl);
     ("mylib::numpy_sin", "CUDA", CFunction numpy_sin_impl)].
Proof. vm_compute. reflexivity. Qed.

Lemma CustomOp_init_replaces_same_name_witness :
  exists a b w1 w2,
    CustomOp_init {| lib_ns := "mylib"; lib_kind := "FRAGMENT" |} "mylib"
      (op_named "numpy_sin") ("mylib::numpy_sin", EmptyString) true initial_world
    = (Ok a, w1)
    /\ CustomOp_init {| lib_ns := "mylib"; lib_kind := "FRAGMENT" |} "mylib"
         sin_out ("mylib::numpy_sin", "out") true w1
       = (Ok b, w2)
    /\ a <> b
    /\ global_registry w2 !! "mylib::numpy_sin" = Some b.
Proof.
  destruct (CustomOp_init_replaces_same_name
              {| lib_ns := "mylib"; lib_kind := "FRAGMENT" |}
              {| lib_ns := "mylib"; lib_kind := "FRAGMENT" |} "mylib"
              (op_named "numpy_sin") sin_out
              ("mylib::numpy_sin", EmptyString) ("mylib::numpy_sin", "out")
              initial_world eq_refl)
    as (a & b & w1 & w2 & opa & H1 & H2 & Hne & _ & _ & _ & _ & Hreg & _).
  exists a, b, w1, w2. auto.
Defined.

Lemma impl_fake_touches_only_its_operator_witness :
  exists w1,
    impl_fake_inner 0 returns_none frame1 registered = (Ok returns_none, w1)
    /\ global_registry w1 = global_registry registered
    /\ length (heap w1) = 1.
Proof.
  destruct (impl_fake_touches_only_its_operator 0 sin_op returns_none frame1
              registered eq_refl eq_refl)
    as (w1 & op1 & fl & H & _ & _ & _ & _ & Hlen & Hreg & _).
  exists w1. auto.
Defined.

Lemma impl_fake_meta_kernel_points_at_registration_witness :
  exists w1 k msg,
    impl_fake_inner 0 asks_ctx frame1 registered = (Ok asks_ctx, w1)
    /\ last (kernels (dispatcher w1)) = Some ("mylib::numpy_sin", "Meta", k)
    /\ call_callable k [x_plain] [] w1 = (Raise (RuntimeError msg), w1).
Proof.
  assert (Hbody : call_function asks_ctx [x_plain] [] = get_ctx) by reflexivity.
  destruct (impl_fake_meta_kernel_points_at_registration 0 sin_op asks_ctx frame1
              registered [x_plain] [] eq_refl eq_refl Hbody)
    as (w1 & op1 & fl & k & H & _ & _ & Hlast & Hcall).
  destruct (Hcall w1) as (msg & Hmsg & _).
  exists w1, k, msg. auto.
Defined.

Lemma set_ctx_getter_nests_witness :
  set_ctx_getter (const_getter (VInt 1))
    (let* x := set_ctx_getter (const_getter (VInt 2)) get_ctx in
     let* g := gets global_ctx_getter in
     ret (x, g)) initial_world
  = (Ok (VInt 2, const_getter (VInt 1)), initial_world).
Proof.
  exact (proj2 (set_ctx_getter_nests (const_getter (VInt 1)) (const_getter (VInt 2))
                  get_ctx (VInt 2) initial_world
                  (set_global_ctx_getter (const_getter (VInt 2)) initial_world)
                  eq_refl)).
Defined.

Lemma custom_op_returns_only_validated_witness :
  exists fn fs,
    PFunction numpy_sin = PFunction fn
    /\ parse (__name__ fn +:+ "(Tensor x) -> Tensor") = Ok fs
    /\ compared_names_match fs fn.
Proof.
  destruct (custom_op_returns_only_validated "(Tensor x) -> Tensor" "mylib"
              (PFunction numpy_sin) initial_world registered 0 custom_op_numpy_sin)
    as (fn & fs & Hf & _ & _ & Hp & _ & Hm).
  exists fn, fs. auto.
Defined.

Lemma custom_op_result_attributes_witness :
  exists op,
    heap registered !! 0 = Some op
    /\ self__name__ op = Some "numpy_sin"
    /\ _fake_impl op = None.
Proof.
  destruct (custom_op_result_attributes "(Tensor x) -> Tensor" "mylib"
              (PFunction numpy_sin) initial_world registered 0 custom_op_numpy_sin)
    as (fn & op & [= <-] & _ & Hop & Hn & _ & _ & Hfake & _).
  exists op. auto.
Defined.

Lemma custom_op_qualname_parses_back_witness :
  exists op,
    heap registered !! 0 = Some op
    /\ parse_namespace (_qualname op) = Ok ("mylib", "numpy_sin").
Proof.
  destruct (custom_op_qualname_parses_back "(Tensor x) -> Tensor" "mylib"
              (PFunction numpy_sin) initial_world registered 0 custom_op_numpy_sin
              eq_refl)
    as (fn & fs & op & [= <-] & Hp & Hop & Hq).
  exists op. split; [exact Hop |].
  assert (Hfs : Ok sin_schema = Ok fs) by exact Hp.
  injection Hfs as <-. exact Hq.
Defined.

(** ** Where the schema checks stop short *)

(** C1 fails as stated: a schema whose keyword-only parameter is named [self]
    declares a parameter named [self], yet [validate_schema] accepts it and
    the decorator registers the operator. *)
Lemma keyword_only_self_is_registered :
  declares_parameter_named_self kwself_schema
  /\ ~ rejected_schema kwself_schema
  /\ parse ("scale" +:+ "(Tensor x, *, int self) -> Tensor") = Ok kwself_schema
  /\ validate_schema kwself_schema = Ok tt
  /\ (exists w',
        custom_op "(Tensor x, *, int self) -> Tensor" "mylib" (PFunction scale)
          initial_world = (Ok 0, w'))
  /\ ~ (exists msg w',
          custom_op "(Tensor x, *, int self) -> Tensor" "mylib" (PFunction scale)
            initial_world = (Raise (ValueError msg), w')).
Proof.
  assert (Hrun : exists w',
             custom_op "(Tensor x, *, int self) -> Tensor" "mylib" (PFunction scale)
               initial_world = (Ok 0, w'))
    by (eexists; vm_compute; reflexivity).
  split.
  { exists (int_arg "self"). split; [| reflexivity].
    cbn. apply list_elem_of_further, list_elem_of_here. }
  split.
  { intros Hbad. apply validate_schema_rejects in Hbad as [msg Hmsg].
    discriminate Hmsg. }
  split; [reflexivity |]. split; [reflexivity |]. split; [exact Hrun |].
  intros (msg & w' & H). destruct Hrun as [w'' Hrun]. congruence.
Qed.

(** C2, the defect: on a schema with tensor options the check looks at none
    of [dtype], [layout], [device], [pin_memory].  A function whose
    signature is the schema's is turned away with a ValueError, and one that
    lacks all four keyword-only parameters passes and is registered. *)
Lemma tensor_options_escape_the_signature_check :
  validate_schema options_schema = Ok tt
  /\ parse ("my_empty_like" +:+ options_schema_text) = Ok options_schema
  /\ declared_positional_names options_schema = args my_empty_like_exact
  /\ declared_kwonly_names options_schema = kwonlyargs my_empty_like_exact
  /\ (exists msg,
        validate_function_matches_schema options_schema my_empty_like_exact
        = Raise (ValueError msg)
        /\ custom_op options_schema_text "mylib" (PFunction my_empty_like_exact)
             initial_world
           = (Raise (ValueError msg), initial_world))
  /\ declared_kwonly_names options_schema <> kwonlyargs my_empty_like_short
  /\ validate_function_matches_schema options_schema my_empty_like_short = Ok tt
  /\ exists w',
       custom_op options_schema_text "mylib" (PFunction my_empty_like_short)
         initial_world = (Ok 0, w').
Proof.
  split; [reflexivity |]. split; [reflexivity |].
  split; [reflexivity |]. split; [reflexivity |].
  split; [eexists; split; vm_compute; reflexivity |].
  split; [discriminate |]. split; [reflexivity |].
  eexists. vm_compute. reflexivity.
Qed.

(** C10 fails as stated: a direct call of the constructor that passes
    [_private_access=True] yields a registered CustomOp, here under the
    reserved namespace [torch], that no run of [custom_op] has produced: no
    schema was defined and no kernel installed for it. *)
Lemma CustomOp_built_without_custom_op :
  exists w' op,
    CustomOp_init {| lib_ns := "torch"; lib_kind := "FRAGMENT" |} "torch"
      (op_named "anything") ("torch::anything", EmptyString) true initial_world
    = (Ok 0, w')
    /\ heap w' !! 0 = Some op
    /\ _qualname op = "torch::anything"
    /\ global_registry w' !! "torch::anything" = Some 0
    /\ schemas (dispatcher w') = []
    /\ kernels (dispatcher w') = []
    /\ ~ (exists schema ns func w0, custom_op schema ns func w0 = (Ok 0, w')).
Proof.
  eexists _, _. split; [vm_compute; reflexivity |].
  split; [reflexivity |]. split; [reflexivity |].
  split; [vm_compute; reflexivity |].
  split; [reflexivity |]. split; [reflexivity |].
  intros (schema & ns & func & w0 & H).
  apply custom_op_ok in H as (fn & fs & op & _ & _ & _ & _ & _ & _ & _ & _ & _ & Hk).
  cbn in Hk. exact (app_cons_not_nil _ _ _ Hk).
Qed.

(** ** The layout benchmark *)

Import LayoutBenchmark.

Section BenchmarkProperties.
Context `{T : Torch}.

Lemma bbind_ok_inv {A C} (m : B A) (k : A -> B C) (s s1 : BenchState machine) (c : C) :
  bbind m k s = (Ok c, s1) ->
  exists a s', m s = (Ok a, s') /\ k a s' = (Ok c, s1).
Proof.
  unfold bbind. destruct (m s) as [[a | e] s']; [eauto | discriminate].
Qed.

Lemma bbind_ok {A C} (m : B A) (k : A -> B C) (s s' : BenchState machine) (a : A) :
  m s = (Ok a, s') -> bbind m k s = k a s'.
Proof. unfold bbind. now intros ->. Qed.

Lemma bench_conv_outputs_inv (with_stack : bool) (s s1 : BenchState machine)
    (baseline_fn test_fn : BenchFn) (baseline_out test_out : tensor) :
  bench_conv_outputs with_stack s
  = (Ok (baseline_fn, test_fn, baseline_out, test_out), s1) ->
  exists x weight x_chan,
    to_channels_last x = Ok x_chan
    /\ baseline_fn = convolution x weight None conv_kwargs
    /\ test_fn = convolution x_chan weight None conv_kwargs.
Proof.
  unfold bench_conv_outputs. intros H.
  apply bbind_ok_inv in H as (x0 & t1 & _ & H).
  apply bbind_ok_inv in H as (x & t2 & _ & H).
  apply bbind_ok_inv in H as (w0 & t3 & _ & H).
  apply bbind_ok_inv in H as (weight & t4 & _ & H).
  apply bbind_ok_inv in H as (x_chan & t5 & Hx & H).
  injection Hx as Hx _.
  apply bbind_ok_inv in H as (weight_chan & t6 & _ & H).
  cbv zeta in H.
  do 6 (let a := fresh "a" in let t := fresh "s" in
        apply bbind_ok_inv in H as (a & t & _ & H)).
  injection H as <- <- _ _ _.
  exists x, weight, x_chan. auto.
Qed.


End BenchmarkProperties.

Import LayoutBenchmark.Small.


Example bench_conv_on_sound_machine :
  exists s1,
    bench_conv true (start sound_machine) = (Ok tt, s1)
    /\ stdout s1 = ["conv baseline 4000000000 test 4000000000 speedup 100000000x"].
Proof. eexists. split; vm_compute; reflexivity. Qed.

